(** * DOCPOC: the OCR-to-markdown script [app/main.py]

    A shallow embedding of the script and the properties its specification
    states about it.  The script lists the images of a folder, recognises the
    text of each one with the Azure Read API or with Tesseract, and writes one
    markdown document with a section per page.

    Conventions of the embedding:
    - a Python [str] is the list of its Unicode code points ([pystr]);
    - what the operating system, the HTTP service and the OCR engine answer
      is read from a [world], a record of oracles; the code never sees more
      of them than these answers;
    - an exception is a value of [exn]; code that may raise returns
      [exn + A] and [try]/[except Exception] is the function [try_except];
    - the clock is counted in milliseconds;
    - the output file is opened for writing without fault and the console
      takes the one line printed to it; what the script itself hands to
      [write_text] may still fail to encode, and then the call raises. *)

From Stdlib Require Import List Bool Arith NArith ZArith Lia.
From Stdlib Require Import Ascii String.
From Stdlib Require Import Sorting.Sorted Sorting.Permutation.
Import ListNotations.

(* ================================================================= *)
(** ** Python strings *)

Module PyStr.

Definition pychar := N.
Definition pystr := list pychar.

(** An ASCII literal of the source. *)
Definition py (s : string) : pystr :=
  List.map N_of_ascii (list_ascii_of_string s).
Arguments py : simpl never.

Definition nl : pystr := [10%N].

Definition chr_eqb (a b : pychar) : bool := N.eqb a b.

Fixpoint str_eqb (a b : pystr) : bool :=
  match a, b with
  | [], [] => true
  | x :: a', y :: b' => chr_eqb x y && str_eqb a' b'
  | _, _ => false
  end.

(** [a < b] on [str]: lexicographic on code points. *)
Fixpoint str_ltb (a b : pystr) : bool :=
  match a, b with
  | _, [] => false
  | [], _ :: _ => true
  | x :: a', y :: b' =>
      if N.ltb x y then true
      else if N.ltb y x then false
      else str_ltb a' b'
  end.

(** [str.isspace] on one character, as CPython decides it
    ([_Py_ascii_whitespace] below 128, [_PyUnicode_IsWhitespace] above). *)
Definition isspace (c : pychar) : bool :=
  ((9 <=? c) && (c <=? 13) || (28 <=? c) && (c <=? 32)
   || (c =? 133) || (c =? 160) || (c =? 5760)
   || (8192 <=? c) && (c <=? 8202)
   || (c =? 8232) || (c =? 8233) || (c =? 8239) || (c =? 8287)
   || (c =? 12288))%N.

Fixpoint lstrip_by (f : pychar -> bool) (s : pystr) : pystr :=
  match s with
  | [] => []
  | c :: s' => if f c then lstrip_by f s' else s
  end.

Definition rstrip_by (f : pychar -> bool) (s : pystr) : pystr :=
  rev (lstrip_by f (rev s)).

(** [s.rstrip()], [s.strip()] and [s.rstrip("/")]. *)
Definition rstrip (s : pystr) : pystr := rstrip_by isspace s.
Definition strip (s : pystr) : pystr := rstrip_by isspace (lstrip_by isspace s).
Definition rstrip_slash (s : pystr) : pystr := rstrip_by (chr_eqb 47%N) s.

(** [s.lower()].  Only the letters A-Z are mapped: the two code points
    outside ASCII that lower-case into ASCII (U+0130, U+212A) give no
    letter sequence of an allowed extension, so membership of a lowered
    suffix in [IMAGE_EXTS] is decided the same way.  It is used for that
    test and for the names of HTTP headers only. *)
Definition lower_chr (c : pychar) : pychar :=
  if ((65 <=? c) && (c <=? 90))%N then (c + 32)%N else c.
Definition lower (s : pystr) : pystr := List.map lower_chr s.

(** [s.replace("\\", "/")]: both strings are one character long. *)
Definition replace_backslash (s : pystr) : pystr :=
  List.map (fun c => if chr_eqb c 92%N then 47%N else c) s.

(** [sep.join(parts)] for parts that are all [str]. *)
Fixpoint join (sep : pystr) (parts : list pystr) : pystr :=
  match parts with
  | [] => []
  | [p] => p
  | p :: rest => p ++ sep ++ join sep rest
  end.

(** [s.rfind(".")]: the index of the last dot, if there is one. *)
Fixpoint rfind_dot (s : pystr) : option nat :=
  match s with
  | [] => None
  | c :: s' =>
      match rfind_dot s' with
      | Some i => Some (S i)
      | None => if chr_eqb c 46%N then Some 0 else None
      end
  end.

(** Decimal rendering of an [int] that is not negative, as [str(n)] and
    an f-string do it. *)
Fixpoint digits (d : Decimal.uint) : pystr :=
  match d with
  | Decimal.Nil => []
  | Decimal.D0 d => 48%N :: digits d
  | Decimal.D1 d => 49%N :: digits d
  | Decimal.D2 d => 50%N :: digits d
  | Decimal.D3 d => 51%N :: digits d
  | Decimal.D4 d => 52%N :: digits d
  | Decimal.D5 d => 53%N :: digits d
  | Decimal.D6 d => 54%N :: digits d
  | Decimal.D7 d => 55%N :: digits d
  | Decimal.D8 d => 56%N :: digits d
  | Decimal.D9 d => 57%N :: digits d
  end.

Definition str_of_nat (n : nat) : pystr := digits (Nat.to_uint n).
Definition str_of_N (n : N) : pystr := digits (N.to_uint n).

(** The code points U+D800..U+DFFF.  A [str] may hold one on its own (a
    file name with a byte that is no UTF-8, a JSON escape such as
    [\ud83d]); [s.encode("utf-8")] succeeds exactly on a [str] that holds
    none. *)
Definition is_surrogate (c : pychar) : bool :=
  ((55296 <=? c) && (c <=? 57343))%N.

Definition encodable (s : pystr) : bool :=
  forallb (fun c => negb (is_surrogate c)) s.

End PyStr.
Export PyStr.

(* ================================================================= *)
(** ** Exceptions and the values [r.json()] returns *)

Module PyVal.

(** The exception classes the script names or raises itself, and
    [Raised cls] for an instance of [Exception] that a library call raises
    ([OSError], [requests.ConnectionError], [JSONDecodeError], ...).
    [KeyboardInterrupt] and [SystemExit] are not instances of [Exception]:
    they reach the script from outside and have no place in a sequential
    run, so [exn] has none of them. *)
Inductive exn_type :=
| RuntimeError
| TimeoutError
| AttributeError
| TypeError
| Raised (cls : pystr).

(** [exn_str e] is [str(e)], what an f-string prints for [e]. *)
Record exn := Exn { exn_class : exn_type; exn_str : pystr }.

#[local] Set Warnings "-register-all".
Inductive pyval :=
| PNone
| PBool (b : bool)
| PInt (z : Z)
| PFloat (lit : pystr)
| PStr (s : pystr)
| PList (items : list pyval)
| PDict (kvs : list (pystr * pyval)).

Definition type_name (v : pyval) : pystr :=
  match v with
  | PNone => py "NoneType"
  | PBool _ => py "bool"
  | PInt _ => py "int"
  | PFloat _ => py "float"
  | PStr _ => py "str"
  | PList _ => py "list"
  | PDict _ => py "dict"
  end.

Fixpoint lookup (key : pystr) (kvs : list (pystr * pyval)) : option pyval :=
  match kvs with
  | [] => None
  | (k, v) :: rest => if str_eqb k key then Some v else lookup key rest
  end.

(** [v.get(key, default)]: only a [dict] has the method. *)
Definition dict_get (v : pyval) (key : pystr) (default : pyval) : exn + pyval :=
  match v with
  | PDict kvs =>
      inr (match lookup key kvs with Some x => x | None => default end)
  | _ =>
      inl (Exn AttributeError
             (py "'" ++ type_name v ++ py "' object has no attribute 'get'"))
  end.

(** [for x in v]: the items of a list, the keys of a dict, the characters
    of a string; nothing else in a decoded JSON value is iterable. *)
Definition py_iter (v : pyval) : exn + list pyval :=
  match v with
  | PList items => inr items
  | PDict kvs => inr (List.map (fun kv => PStr (fst kv)) kvs)
  | PStr s => inr (List.map (fun c => PStr [c]) s)
  | _ =>
      inl (Exn TypeError
             (py "'" ++ type_name v ++ py "' object is not iterable"))
  end.

(** [status == "succeeded"]: a [str] equals only an equal [str]. *)
Definition eq_str (v : pyval) (s : pystr) : bool :=
  match v with
  | PStr t => str_eqb t s
  | _ => false
  end.

(** [sep.join(items)]: raises on the first item that is not a [str]. *)
Fixpoint join_from (i : nat) (items : list pyval) : exn + list pystr :=
  match items with
  | [] => inr []
  | PStr s :: rest =>
      match join_from (S i) rest with
      | inl e => inl e
      | inr parts => inr (s :: parts)
      end
  | v :: _ =>
      inl (Exn TypeError
             (py "sequence item " ++ str_of_nat i
                ++ py ": expected str instance, " ++ type_name v
                ++ py " found"))
  end.

Definition join_values (sep : pystr) (items : list pyval) : exn + pystr :=
  match join_from 0 items with
  | inl e => inl e
  | inr parts => inr (join sep parts)
  end.

End PyVal.
Export PyVal.

(* ================================================================= *)
(** ** Effects: a trace of what the run does, and exceptions *)

Module Eff.

Inductive event :=
| EvPost (url : option pystr) (path : pystr) (* requests.post(READ_API, data=f) *)
| EvGet (url : pystr)                   (* requests.get(operation_url) *)
| EvSleep                               (* time.sleep(0.5) *)
| EvLocal (path : pystr)                (* Image.open + image_to_string *)
| EvWrite (file : pystr) (text : pystr) (* OUTPUT_MD.write_text(text) *)
| EvTruncate (file : pystr)             (* write_text opened the file, which
                                           is now empty, and wrote nothing *)
| EvPrint (line : pystr).               (* print(line) *)

(** A computation: the value it returns or the exception it raises, and
    the events it performed up to there. *)
Definition M (A : Type) : Type := ((exn + A) * list event)%type.

Definition ret {A} (a : A) : M A := (inr a, []).
Definition raise {A} (e : exn) : M A := (inl e, []).
Definition tell (ev : event) : M unit := (inr tt, [ev]).

Definition bind {A B} (m : M A) (k : A -> M B) : M B :=
  match m with
  | (inl e, t) => (inl e, t)
  | (inr a, t) => let (r, t') := k a in (r, t ++ t')
  end.

(** The answer of a library call or of an oracle. *)
Definition lift {A} (r : exn + A) : M A := (r, []).

(** [try: body / except Exception as e: handler(e)]. *)
Definition try_except {A} (body : M A) (handler : exn -> M A) : M A :=
  match body with
  | (inl e, t) => let (r, t') := handler e in (r, t ++ t')
  | (inr a, t) => (inr a, t)
  end.

Definition result {A} (m : M A) : exn + A := fst m.
Definition trace {A} (m : M A) : list event := snd m.

End Eff.
Export Eff.

Notation "x <- m ;; k" := (bind m (fun x => k))
  (at level 61, m at next level, right associativity).
Notation "m ;;; k" := (bind m (fun _ => k))
  (at level 61, right associativity).

(* ================================================================= *)
(** ** What the script reads from its surroundings *)

Module Env.

(** [pathlib] has two flavours; the interpreter's platform picks one.
    The Windows flavour compares paths by their components with the case
    folded, [casefold] standing for the interpreter's [str.lower] on a
    component; the Posix flavour compares them as they are. *)
Inductive flavour :=
| Posix
| Windows (casefold : pystr -> pystr).

(** What a directory entry is: a regular file, a directory, or anything
    else (a symbolic link, a FIFO, a socket, a device). *)
Inductive entry_kind := RegularFile | Directory | OtherEntry.

(** What the module-level code finds when it is imported. *)
Record config := Config {
  AZURE_OCR_ENDPOINT : option pystr;  (* os.environ.get("AZURE_OCR_ENDPOINT") *)
  AZURE_OCR_KEY : option pystr;       (* os.environ.get("AZURE_OCR_KEY") *)
  pytesseract : bool;                 (* [import pytesseract] succeeded *)
  path_flavour : flavour;
  OUTPUT_MD : pystr                   (* str(OUTPUT_MD) *)
}.

Record response := Response {
  status_code : N;
  text : pystr;
  headers : list (pystr * pystr)
}.

(** One poll: [requests.get] raises, or answers with a body on which
    [r.json()] raises or returns the decoded value. *)
Inductive get_reply :=
| GetRaises (e : exn)
| GetBody (json : exn + pyval).

(** The answers of the operating system, of the Azure service and of the
    local engine.  A path of [IMAGE_FOLDER] is named by its last component.
    The k-th poll made for a file takes [lag path k] milliseconds on top of
    the half second slept after it. *)
Record world := World {
  iterdir : exn + list pystr;            (* IMAGE_FOLDER.iterdir(), OS order *)
  kind : pystr -> entry_kind;
  dir_error : pystr -> exn;              (* what opening a directory raises *)
  open_error : pystr -> option exn;      (* what opening another entry raises *)
  relpath : pystr -> exn + pystr;        (* os.path.relpath(path, OUTPUT_MD.parent) *)
  post_reply : pystr -> exn + response;  (* requests.post for this file *)
  poll_reply : pystr -> nat -> get_reply;
  clock : pystr -> Z;                    (* time.time() when polling starts *)
  lag : pystr -> nat -> N;
  pil_decode : pystr -> option exn;      (* Image.open on an opened file *)
  image_to_string : pystr -> exn + pystr; (* pytesseract.image_to_string *)
  write_error : pystr -> exn             (* the UnicodeEncodeError of a text
                                            that UTF-8 cannot encode *)
}.

Definition is_dir (w : world) (name : pystr) : bool :=
  match kind w name with
  | Directory => true
  | _ => false
  end.

(** [x] as a condition, for a value that is [None] or a [str]. *)
Definition truthy (x : option pystr) : bool :=
  match x with
  | Some (_ :: _) => true
  | _ => false
  end.

(** [CaseInsensitiveDict.get]: header names are compared lower-cased. *)
Fixpoint headers_get (hs : list (pystr * pystr)) (key : pystr) : option pystr :=
  match hs with
  | [] => None
  | (k, v) :: rest =>
      if str_eqb (lower k) (lower key) then Some v else headers_get rest key
  end.

End Env.
Export Env.

(* ================================================================= *)
(** ** The script *)

Section Script.

Variable cfg : config.
Variable w : world.
(** [repr] of a decoded JSON value, as an f-string prints it. *)
Variable repr : pyval -> pystr.

Definition AZURE_ENDPOINT : option pystr := AZURE_OCR_ENDPOINT cfg.
Definition AZURE_KEY : option pystr := AZURE_OCR_KEY cfg.

Definition IMAGE_FOLDER : pystr :=
  py "C:\Users\user\Downloads\genAI-POC\images\ilovepdf_pages-to-jpg".

Definition READ_API : option pystr :=
  if truthy AZURE_ENDPOINT && truthy AZURE_KEY then
    match AZURE_ENDPOINT with
    | Some endpoint => Some (rstrip_slash endpoint ++ py "/vision/v3.2/read/analyze")
    | None => None
    end
  else None.

(** [open(path, "rb")]. *)
Definition open_rb (path : pystr) : exn + unit :=
  if is_dir w path then inl (dir_error w path)
  else match open_error w path with
       | Some e => inl e
       | None => inr tt
       end.

(** The inner loop of the succeeded branch:
    [for line in ...: lines.append(line.get("text", ""))]. *)
Fixpoint page_lines (ls : list pyval) (lines : list pyval) : exn + list pyval :=
  match ls with
  | [] => inr lines
  | line :: rest =>
      match dict_get line (py "text") (PStr []) with
      | inl e => inl e
      | inr t => page_lines rest (lines ++ [t])
      end
  end.

(** The outer loop: [for page in read_results: for line in page.get("lines", [])]. *)
Fixpoint all_lines (pages : list pyval) (lines : list pyval) : exn + list pyval :=
  match pages with
  | [] => inr lines
  | page :: rest =>
      match dict_get page (py "lines") (PList []) with
      | inl e => inl e
      | inr v =>
          match py_iter v with
          | inl e => inl e
          | inr ls =>
              match page_lines ls lines with
              | inl e => inl e
              | inr lines' => all_lines rest lines'
              end
          end
      end
  end.

(** Lines 69-74: the text of a succeeded payload. *)
Definition succeeded_text (rj : pyval) : exn + pystr :=
  match dict_get rj (py "analyzeResult") (PDict []) with
  | inl e => inl e
  | inr ar =>
      match dict_get ar (py "readResults") (PList []) with
      | inl e => inl e
      | inr read_results =>
          match py_iter read_results with
          | inl e => inl e
          | inr pages =>
              match all_lines pages [] with
              | inl e => inl e
              | inr lines => join_values nl lines
              end
          end
      end
  end.

Definition timed_out : exn :=
  Exn TimeoutError (py "Timed out waiting for Azure Read result").

Definition read_failed (rj : pyval) : exn :=
  Exn RuntimeError (py "Azure Read failed: " ++ repr rj).

(** What one pass through the loop body decides. *)
Inductive verdict :=
| Return (text : pystr)
| Raise (e : exn)
| Continue.

(** Lines 65-76, after the request has been sent. *)
Definition poll_body (reply : get_reply) : verdict :=
  match reply with
  | GetRaises e => Raise e
  | GetBody (inl e) => Raise e
  | GetBody (inr rj) =>
      match dict_get rj (py "status") PNone with
      | inl e => Raise e
      | inr status =>
          if eq_str status (py "succeeded") then
            match succeeded_text rj with
            | inl e => Raise e
            | inr text => Return text
            end
          else if eq_str status (py "failed") then Raise (read_failed rj)
          else Continue
      end
  end.

(** Lines 64-79: [while time.time() < deadline: ...] and the [raise] after
    it.  [now] is the clock at this test, [k] the number of polls made.
    Every pass takes at least the half second it sleeps, so the loop makes
    at most [poll_budget] passes; [fuel] only makes the recursion
    structural (the budget is never exhausted before the deadline). *)
Fixpoint poll_loop (fuel : nat) (path url : pystr) (deadline now : Z) (k : nat)
  : M pystr :=
  match fuel with
  | O => raise timed_out
  | S fuel' =>
      if (now <? deadline)%Z then
        tell (EvGet url) ;;;
        match poll_body (poll_reply w path k) with
        | Return text => ret text
        | Raise e => raise e
        | Continue =>
            tell EvSleep ;;;
            poll_loop fuel' path url deadline
              (now + 500 + Z.of_N (lag w path k))%Z (S k)
        end
      else raise timed_out
  end.

Definition poll_budget (timeout : Z) : nat := S (Z.to_nat (timeout * 1000 / 500 + 1)).

Definition api_error (resp : response) : exn :=
  Exn RuntimeError
    (py "Azure Read API error: " ++ str_of_N (status_code resp) ++ py " "
       ++ text resp).

Definition missing_location : exn :=
  Exn RuntimeError (py "Missing Operation-Location header from Azure response").

(** [azure_read_image(path, timeout)]; [timeout] is in seconds. *)
Definition azure_read_image (path : pystr) (timeout : Z) : M pystr :=
  lift (open_rb path) ;;;
  tell (EvPost READ_API path) ;;;
  resp <- lift (post_reply w path) ;;
  if negb (status_code resp =? 202)%N then raise (api_error resp)
  else
    match headers_get (headers resp) (py "Operation-Location") with
    | None | Some [] => raise missing_location
    | Some operation_url =>
        let deadline := (clock w path + timeout * 1000)%Z in
        poll_loop (poll_budget timeout) path operation_url deadline
          (clock w path) 0
    end.

(** Lines 104-105 and 113-114: [Image.open(path)], which opens the file
    itself, then [pytesseract.image_to_string(img, lang="eng")]. *)
Definition Image_open (path : pystr) : exn + unit :=
  match open_rb path with
  | inl e => inl e
  | inr _ =>
      match pil_decode w path with
      | Some e => inl e
      | None => inr tt
      end
  end.

Definition tesseract (path : pystr) : M pystr :=
  tell (EvLocal path) ;;;
  lift (Image_open path) ;;;
  lift (image_to_string w path).

Definition both_failed (e_azure e_tess : exn) : pystr :=
  py "_Error during OCR: Azure error: " ++ exn_str e_azure
    ++ py "; Tesseract error: " ++ exn_str e_tess ++ py "_".

Definition azure_failed (e_azure : exn) : pystr :=
  py "_Error during OCR: Azure error: " ++ exn_str e_azure ++ py "_".

Definition tesseract_failed (e : exn) : pystr :=
  py "_Tesseract error: " ++ exn_str e ++ py "_".

Definition no_backend : pystr :=
  py "_No OCR backend available. Set AZURE_OCR_* or install pytesseract and Tesseract executable._".

(** Lines 95-118: the text of one page. *)
Definition ocr_text (path : pystr) : M pystr :=
  if truthy READ_API then
    try_except (azure_read_image path 30)
      (fun e_azure =>
         if pytesseract cfg then
           try_except (tesseract path)
             (fun e_tess => ret (both_failed e_azure e_tess))
         else ret (azure_failed e_azure))
  else
    if pytesseract cfg then
      try_except (tesseract path) (fun e => ret (tesseract_failed e))
    else ret no_backend.

Record Document := Doc {
  page_content : pystr;
  metadata_page : nat;
  metadata_source : pystr
}.

(** [str(path)] for [path = IMAGE_FOLDER / name]. *)
Definition path_str (name : pystr) : pystr :=
  IMAGE_FOLDER
    ++ match path_flavour cfg with Posix => [47%N] | Windows _ => [92%N] end
    ++ name.

(** The heading literal holds the three characters U+00E2 U+20AC U+201D
    between the index and the name. *)
Definition heading (idx : nat) (name : pystr) : pystr :=
  py "## Page " ++ str_of_nat idx ++ [32; 226; 8364; 8221; 32]%N ++ name ++ nl.

Definition image_ref (name rel_path : pystr) : pystr :=
  py "![" ++ name ++ py "](" ++ rel_path ++ py ")" ++ nl.

Definition title : pystr := py "# OCR Output" ++ nl.

Definition no_text : pystr := py "_No text recognized._" ++ nl.
Definition fence_open : pystr := py "```text".
Definition fence_close : pystr := py "```" ++ nl.

(** Lines 122-127: what is appended to [md_lines] for the text. *)
Definition text_block (text : pystr) : list pystr :=
  match strip text with
  | [] => [no_text]
  | _ :: _ => [fence_open; rstrip text; fence_close]
  end.

(** Lines 90-127: the loop over [enumerate(files, start=1)], with the two
    lists it appends to. *)
Fixpoint pages_loop (files : list pystr) (idx : nat)
    (docs : list Document) (md_lines : list pystr)
  : M (list Document * list pystr) :=
  match files with
  | [] => ret (docs, md_lines)
  | path :: rest =>
      rel <- lift (relpath w path) ;;
      let rel_path := replace_backslash rel in
      let md_lines := md_lines ++ [heading idx path] in
      let md_lines := md_lines ++ [image_ref path rel_path] in
      text <- ocr_text path ;;
      let docs := docs ++ [Doc text idx (path_str path)] in
      let md_lines := md_lines ++ text_block text in
      pages_loop rest (S idx) docs md_lines
  end.

(** [p.suffix]: from the last dot on, unless that dot starts or ends the name. *)
Definition suffix (name : pystr) : pystr :=
  match rfind_dot name with
  | Some i => if (0 <? i) && (S i <? List.length name) then skipn i name else []
  | None => []
  end.

Definition IMAGE_EXTS : list pystr :=
  [py ".png"; py ".jpg"; py ".jpeg"; py ".tiff"; py ".bmp"; py ".gif"].

Definition is_image (name : pystr) : bool :=
  existsb (str_eqb (lower (suffix name))) IMAGE_EXTS.

(** The order of the paths of one folder: that of their last components,
    with the case folded on the Windows flavour. *)
Definition path_key (name : pystr) : pystr :=
  match path_flavour cfg with
  | Posix => name
  | Windows casefold => casefold name
  end.

Definition path_ltb (a b : pystr) : bool := str_ltb (path_key a) (path_key b).

(** [sorted]: the stable sort by [<]. *)
Fixpoint insert (x : pystr) (l : list pystr) : list pystr :=
  match l with
  | [] => [x]
  | y :: l' => if path_ltb y x then y :: insert x l' else x :: l
  end.

Fixpoint sorted (l : list pystr) : list pystr :=
  match l with
  | [] => []
  | x :: l' => insert x (sorted l')
  end.

(** Line 85. *)
Definition list_files : M (list pystr) :=
  entries <- lift (iterdir w) ;;
  ret (sorted (filter is_image entries)).

Definition summary (n : nat) : pystr :=
  py "Wrote " ++ str_of_nat n ++ py " pages to " ++ OUTPUT_MD cfg.

(** Line 129, [OUTPUT_MD.write_text(text, encoding="utf-8")]: the file is
    opened for writing, which creates it or empties it, and the text is
    encoded and written; a text that cannot be encoded raises after the
    file was opened, and leaves it empty. *)
Definition write_text (text : pystr) : M unit :=
  if encodable text then tell (EvWrite (OUTPUT_MD cfg) text)
  else tell (EvTruncate (OUTPUT_MD cfg)) ;;; raise (write_error w text).

(** [main()]. *)
Definition main : M unit :=
  files <- list_files ;;
  st <- pages_loop files 1 [] [title] ;;
  write_text (join nl (snd st)) ;;;
  tell (EvPrint (summary (List.length files))).

End Script.

(* ================================================================= *)
(** ** Vocabulary of the statements *)

Module Vocabulary.

(** The files a run opened for writing, in order, each with what it was
    left holding: the text written, or nothing when the write raised. *)
Fixpoint writes (t : list event) : list (pystr * pystr) :=
  match t with
  | [] => []
  | EvWrite file text :: t' => (file, text) :: writes t'
  | EvTruncate file :: t' => (file, []) :: writes t'
  | _ :: t' => writes t'
  end.

(** The HTTP requests of a trace that poll an operation. *)
Fixpoint polls (t : list event) : nat :=
  match t with
  | [] => 0
  | EvGet _ :: t' => S (polls t')
  | _ :: t' => polls t'
  end.

(** The clock at the k-th test of the loop condition, when polling
    started at [clock w path] and no earlier pass left the loop. *)
Fixpoint clock_at (w : world) (path : pystr) (k : nat) : Z :=
  match k with
  | O => clock w path
  | S j => (clock_at w path j + 500 + Z.of_N (lag w path j))%Z
  end.

(** A line object carrying the text [s]; a page object carrying the
    lines [ls]; a payload in the shape the service documents, with status
    "succeeded" and the pages [pages]. *)
Definition line_of (line : pyval) (s : pystr) : Prop :=
  exists kvs, line = PDict kvs /\ lookup (py "text") kvs = Some (PStr s).

Definition page_of (page : pyval) (ls : list pystr) : Prop :=
  exists kvs items,
    page = PDict kvs /\ lookup (py "lines") kvs = Some (PList items)
    /\ Forall2 line_of items ls.

Definition succeeded_payload (rj : pyval) (pages : list (list pystr)) : Prop :=
  exists kvs ar items,
    rj = PDict kvs
    /\ lookup (py "status") kvs = Some (PStr (py "succeeded"))
    /\ lookup (py "analyzeResult") kvs = Some (PDict ar)
    /\ lookup (py "readResults") ar = Some (PList items)
    /\ Forall2 page_of items pages.

Definition failed_payload (rj : pyval) : Prop :=
  exists kvs,
    rj = PDict kvs /\ lookup (py "status") kvs = Some (PStr (py "failed")).

(** A poll that answers with a JSON object, in the documented shape when
    its status is "succeeded". *)
Definition orderly (reply : get_reply) : Prop :=
  exists kvs,
    reply = GetBody (inr (PDict kvs))
    /\ (lookup (py "status") kvs = Some (PStr (py "succeeded")) ->
        exists pages, succeeded_payload (PDict kvs) pages).

(** [name] ends in one of the allowed extensions, in any letter case. *)
Definition ends_in_extension (name : pystr) : Prop :=
  exists stem ext, name = stem ++ ext /\ In (lower ext) IMAGE_EXTS.

(** Every character of [s] is whitespace: [s] is empty or blank. *)
Definition blank (s : pystr) : Prop := Forall (fun c => isspace c = true) s.

(** The lines of one page's section, and the sections of the files
    numbered from [idx] on: each holds the heading with the file's number,
    the image reference and the block of the file's text. *)
Definition page_section (idx : nat) (name rel_path text : pystr) : list pystr :=
  heading idx name :: image_ref name rel_path :: text_block text.

Fixpoint numbered (cfg : config) (w : world) (repr : pyval -> pystr)
    (idx : nat) (files : list pystr) (secs : list (list pystr)) : Prop :=
  match files, secs with
  | [], [] => True
  | name :: files', sec :: secs' =>
      (exists rel text,
          relpath w name = inr rel
          /\ result (ocr_text cfg w repr name) = inr text
          /\ sec = page_section idx name (replace_backslash rel) text)
      /\ numbered cfg w repr (S idx) files' secs'
  | _, _ => False
  end.

(** [a] does not sort after [b]: [not (b < a)]. *)
Definition not_after (cfg : config) (a b : pystr) : Prop :=
  path_ltb cfg b a = false.

(** The three exits of the poll loop entered at its test number [from]
    with the outcome [r]: the text of a succeeded payload, the failure
    carrying a failed payload, or the timeout, raised at the first test
    that finds the deadline reached. *)
Definition three_exits (w : world) (repr : pyval -> pystr) (path : pystr)
    (deadline : Z) (from : nat) (r : exn + pystr) : Prop :=
  (exists n rj pages,
      poll_reply w path n = GetBody (inr rj)
      /\ succeeded_payload rj pages
      /\ r = inr (join nl (List.concat pages)))
  \/ (exists n rj,
         poll_reply w path n = GetBody (inr rj)
         /\ failed_payload rj
         /\ r = inl (read_failed repr rj))
  \/ (r = inl timed_out
      /\ exists n, from <= n /\ (deadline <= clock_at w path n)%Z
          /\ forall i, from <= i < n ->
               (clock_at w path i < deadline)%Z
               /\ poll_body repr (poll_reply w path i) = Continue).

(** The answers the poll endpoint gave for [path] in a run over [w]: the
    replies to the polls that were made, in order. *)
Definition observed_replies (cfg : config) (w : world) (repr : pyval -> pystr)
    (path : pystr) : list get_reply :=
  List.map (poll_reply w path)
    (seq 0 (polls (trace (azure_read_image cfg w repr path 30)))).

(** Two surroundings answer alike about the file [path], the poll
    endpoint and the clock left aside. *)
Definition same_file_answers (w1 w2 : world) (path : pystr) : Prop :=
  is_dir w1 path = is_dir w2 path
  /\ dir_error w1 path = dir_error w2 path
  /\ open_error w1 path = open_error w2 path
  /\ relpath w1 path = relpath w2 path
  /\ post_reply w1 path = post_reply w2 path
  /\ pil_decode w1 path = pil_decode w2 path
  /\ image_to_string w1 path = image_to_string w2 path.

End Vocabulary.
Export Vocabulary.

(* ================================================================= *)
(** ** Sample surroundings *)

Module Sample.

Definition os_error : exn :=
  Exn (Raised (py "IsADirectoryError")) (py "[Errno 21] Is a directory").

(** What encoding [text] as UTF-8 raises, as CPython words it: the
    exception names the first run of surrogates of the text by its
    position, and the character when the run is of one. *)
Definition hex_digit (n : N) : pychar := (if n <? 10 then 48 + n else 87 + n)%N.

Definition hex4 (c : pychar) : pystr :=
  [hex_digit (c / 4096); hex_digit ((c / 256) mod 16);
   hex_digit ((c / 16) mod 16); hex_digit (c mod 16)]%N.

Fixpoint span_surrogates (s : pystr) : nat :=
  match s with
  | c :: s' => if is_surrogate c then S (span_surrogates s') else 0
  | [] => 0
  end.

Fixpoint first_surrogate (s : pystr) (i : nat) : option (nat * pychar * nat) :=
  match s with
  | [] => None
  | c :: s' =>
      if is_surrogate c then Some (i, c, span_surrogates s')
      else first_surrogate s' (S i)
  end.

Definition encode_error (text : pystr) : exn :=
  Exn (Raised (py "UnicodeEncodeError"))
    match first_surrogate text 0 with
    | Some (i, c, 0) =>
        py "'utf-8' codec can't encode character '\u" ++ hex4 c
          ++ py "' in position " ++ str_of_nat i
          ++ py ": surrogates not allowed"
    | Some (i, _, S n) =>
        py "'utf-8' codec can't encode characters in position "
          ++ str_of_nat i ++ py "-" ++ str_of_nat (i + S n)
          ++ py ": surrogates not allowed"
    | None => []
    end.

Definition json_error : exn :=
  Exn (Raised (py "JSONDecodeError")) (py "Expecting value: line 1 column 1 (char 0)").

Definition running : pyval := PDict [(py "status", PStr (py "running"))].

Definition failed : pyval := PDict [(py "status", PStr (py "failed"))].

Definition succeeded (ls : list pystr) : pyval :=
  PDict
    [(py "status", PStr (py "succeeded"));
     (py "analyzeResult",
      PDict
        [(py "readResults",
          PList
            [PDict
               [(py "lines",
                 PList (List.map (fun s => PDict [(py "text", PStr s)]) ls))]])])].

Definition accepted : response :=
  Response 202 [] [(py "Operation-Location", py "https://azure.test/op/1")].

Definition sample_repr (v : pyval) : pystr := py "{'status': " ++ type_name v ++ py "}".

(** A folder with three images, a text file, a dot file and a directory
    named like an image; the service answers "running" twice, then the
    two lines A and B. *)
Definition folder : world :=
  {| iterdir := inr [py "b.PNG"; py "notes.txt"; py "a.jpg"; py ".png"; py "dir.gif"];
     kind := fun name =>
       if str_eqb name (py "dir.gif") then Directory else RegularFile;
     dir_error := fun _ => os_error;
     open_error := fun _ => None;
     relpath := fun name => inr (py "..\images\" ++ name);
     post_reply := fun _ => inr accepted;
     poll_reply := fun _ k =>
       if k <? 2 then GetBody (inr running)
       else GetBody (inr (succeeded [py "A"; py "B"]));
     clock := fun _ => 1000%Z;
     lag := fun _ _ => 20%N;
     pil_decode := fun _ => None;
     image_to_string := fun _ => inr (py "local text");
     write_error := encode_error |}.

(** The same folder with a service that changes its answers. *)
Definition with_service (post : exn + response) (poll : nat -> get_reply) : world :=
  {| iterdir := iterdir folder;
     kind := kind folder;
     dir_error := dir_error folder;
     open_error := open_error folder;
     relpath := relpath folder;
     post_reply := fun _ => post;
     poll_reply := fun _ => poll;
     clock := clock folder;
     lag := lag folder;
     pil_decode := pil_decode folder;
     image_to_string := image_to_string folder;
     write_error := write_error folder |}.

(** The service answers "running" to the first [n] polls, then "failed". *)
Definition fails_after (n : nat) : world :=
  with_service (inr accepted)
    (fun k => if k <? n then GetBody (inr running) else GetBody (inr failed)).

Definition never_done : world :=
  with_service (inr accepted) (fun _ => GetBody (inr running)).

Definition not_json : world :=
  with_service (inr accepted) (fun _ => GetBody (inl json_error)).

Definition azure_only : config :=
  Config (Some (py "https://vision.test/")) (Some (py "key")) false Posix
    (py "/srv/docpoc/output.md").

Definition azure_and_local : config :=
  Config (Some (py "https://vision.test/")) (Some (py "key")) true Posix
    (py "/srv/docpoc/output.md").

Definition local_only : config :=
  Config None None true Posix (py "/srv/docpoc/output.md").

(** No backend, on Windows.  The names of the samples are ASCII, on which
    [lower] is [str.lower]. *)
Definition nothing : config :=
  Config None None false (Windows lower) (py "C:\docpoc\output.md").

(** The folder listed in another order, with a service that answers the
    same and takes longer. *)
Definition slower : world :=
  {| iterdir := inr [py "a.jpg"; py "dir.gif"; py ".png"; py "b.PNG"; py "notes.txt"];
     kind := kind folder;
     dir_error := dir_error folder;
     open_error := open_error folder;
     relpath := relpath folder;
     post_reply := post_reply folder;
     poll_reply := poll_reply folder;
     clock := fun _ => 86400000%Z;
     lag := fun _ k => (700 + 100 * N.of_nat k)%N;
     pil_decode := pil_decode folder;
     image_to_string := image_to_string folder;
     write_error := write_error folder |}.

End Sample.

(* ================================================================= *)
(** ** Further vocabulary: what a trace holds, payloads with keys left
    out, and what the loop over the files builds *)

Module Coverage.

Fixpoint posts (t : list event) : nat :=
  match t with
  | [] => 0
  | EvPost _ _ :: t' => S (posts t')
  | _ :: t' => posts t'
  end.

Fixpoint locals (t : list event) : nat :=
  match t with
  | [] => 0
  | EvLocal _ :: t' => S (locals t')
  | _ :: t' => locals t'
  end.

Fixpoint sleeps (t : list event) : nat :=
  match t with
  | [] => 0
  | EvSleep :: t' => S (sleeps t')
  | _ :: t' => sleeps t'
  end.

(** A line object that carries the text [s], or no "text" key at all; a
    page object that carries such lines, or no "lines" key at all. *)
Definition line_with (line : pyval) (o : option pystr) : Prop :=
  exists kvs, line = PDict kvs /\ lookup (py "text") kvs = option_map PStr o.

Definition page_with (page : pyval) (o : option (list (option pystr))) : Prop :=
  exists kvs,
    page = PDict kvs
    /\ match o with
       | None => lookup (py "lines") kvs = None
       | Some ls =>
           exists items,
             lookup (py "lines") kvs = Some (PList items)
             /\ Forall2 line_with items ls
       end.

Definition text_of_line (o : option pystr) : pystr :=
  match o with
  | Some s => s
  | None => []
  end.

Definition lines_of_page (o : option (list (option pystr))) : list pystr :=
  match o with
  | Some ls => List.map text_of_line ls
  | None => []
  end.

(** A line object whose "text" is the value [v], of any type; a page
    object whose lines carry the values [vs]. *)
Definition line_value (line : pyval) (v : pyval) : Prop :=
  exists kvs, line = PDict kvs /\ lookup (py "text") kvs = Some v.

Definition page_values (page : pyval) (vs : list pyval) : Prop :=
  exists kvs items,
    page = PDict kvs /\ lookup (py "lines") kvs = Some (PList items)
    /\ Forall2 line_value items vs.

(** The documents and the sections of the files numbered from [idx] on,
    given the relative path and the text of each. *)
Fixpoint docs_from (cfg : config) (idx : nat) (files texts : list pystr)
  : list Document :=
  match files, texts with
  | name :: files', text :: texts' =>
      Doc text idx (path_str cfg name) :: docs_from cfg (S idx) files' texts'
  | _, _ => []
  end.

Fixpoint sections_from (idx : nat) (files rels texts : list pystr)
  : list (list pystr) :=
  match files, rels, texts with
  | name :: files', rel :: rels', text :: texts' =>
      page_section idx name (replace_backslash rel) text
        :: sections_from (S idx) files' rels' texts'
  | _, _, _ => []
  end.

(** A reply that is a JSON object whose status is neither of the two
    strings the loop looks for. *)
Definition pending (reply : get_reply) : Prop :=
  exists kvs,
    reply = GetBody (inr (PDict kvs))
    /\ lookup (py "status") kvs <> Some (PStr (py "succeeded"))
    /\ lookup (py "status") kvs <> Some (PStr (py "failed")).

End Coverage.
Export Coverage.

Module MoreSamples.

(** A folder that holds no image. *)
Definition no_images : world :=
  {| iterdir := inr [py "notes.txt"; py ".png"; py "png"; py "scan.pdf"; py "x."];
     kind := kind Sample.folder;
     dir_error := dir_error Sample.folder;
     open_error := open_error Sample.folder;
     relpath := relpath Sample.folder;
     post_reply := post_reply Sample.folder;
     poll_reply := poll_reply Sample.folder;
     clock := clock Sample.folder;
     lag := lag Sample.folder;
     pil_decode := pil_decode Sample.folder;
     image_to_string := image_to_string Sample.folder;
     write_error := write_error Sample.folder |}.

(** A succeeded payload whose second line holds a number for its text. *)
Definition number_for_text : pyval :=
  PDict
    [(py "status", PStr (py "succeeded"));
     (py "analyzeResult",
      PDict
        [(py "readResults",
          PList
            [PDict
               [(py "lines",
                 PList [PDict [(py "text", PStr (py "A"))];
                        PDict [(py "text", PInt 7)]])]])])].

(** A folder on a Posix system: the entries [entries] in the order of
    the listing, every one of them opening unless it is a directory, the
    relative paths written with slashes, and a service that answers
    [post] to the submission of a file and [poll] to its polls. *)
Definition on_posix (entries : list pystr) (kinds : pystr -> entry_kind)
    (post : exn + response) (poll : nat -> get_reply) : world :=
  {| iterdir := inr entries;
     kind := kinds;
     dir_error := fun _ => Sample.os_error;
     open_error := fun _ => None;
     relpath := fun name => inr (py "../images/" ++ name);
     post_reply := fun _ => post;
     poll_reply := fun _ => poll;
     clock := fun _ => 1000%Z;
     lag := fun _ _ => 20%N;
     pil_decode := fun _ => None;
     image_to_string := fun _ => inr (py "local text");
     write_error := Sample.encode_error |}.

(** One image, in which the service recognises at once one line that
    holds the lone surrogate U+D83D, as the JSON escape [\ud83d] decodes. *)
Definition lone_surrogate : world :=
  on_posix [py "a.jpg"] (fun _ => RegularFile) (inr Sample.accepted)
    (fun _ => GetBody (inr (Sample.succeeded [[55357%N]]))).

(** One image whose name is no UTF-8: its first byte, E4, shows in the
    [str] of the name as the lone surrogate U+DCE4. *)
Definition undecodable_name : world :=
  on_posix [56548%N :: py ".png"] (fun _ => RegularFile) (inr Sample.accepted)
    (fun _ => GetBody (inr (Sample.succeeded [py "A"; py "B"]))).

(** A folder that holds a file named as an extension is, and a symbolic
    link to an image. *)
Definition with_link : world :=
  on_posix [py ".png"; py "link.png"]
    (fun name => if str_eqb name (py "link.png") then OtherEntry else RegularFile)
    (inr Sample.accepted)
    (fun _ => GetBody (inr (Sample.succeeded [py "A"; py "B"]))).

(** One image and a service that is down: the connection is refused, no
    response comes, and the exception prints the address of the
    connection object, which is another one in every process. *)
Definition refused (address : pystr) : world :=
  on_posix [py "a.jpg"] (fun _ => RegularFile)
    (inl (Exn (Raised (py "ConnectionError"))
            (py "HTTPSConnectionPool(host='vision.test', port=443): Max retries exceeded with url: /vision/v3.2/read/analyze (Caused by NewConnectionError('<urllib3.connection.HTTPSConnection object at 0x"
               ++ address
               ++ py ">: Failed to establish a new connection: [Errno 111] Connection refused'))")))
    (fun _ => GetBody (inr Sample.running)).

End MoreSamples.

(* ================================================================= *)
(** ** Strings *)

Section StripFacts.

Variable f : pychar -> bool.

Lemma lstrip_by_split (s : pystr) :
  exists ws, s = ws ++ lstrip_by f s /\ forallb f ws = true.
Proof.
  induction s as [|c s IH]; simpl.
  - exists []. now split.
  - destruct (f c) eqn:Hc.
    + destruct IH as (ws & Hs & Hws).
      exists (c :: ws). simpl. rewrite Hc, Hws. split; [now f_equal|reflexivity].
    + exists []. now split.
Qed.

Lemma lstrip_by_head (s : pystr) (c : pychar) (rest : pystr) :
  lstrip_by f s = c :: rest -> f c = false.
Proof.
  induction s as [|d s IH]; simpl; [discriminate|].
  destruct (f d) eqn:Hd; [exact IH|].
  intros H. injection H as -> _. exact Hd.
Qed.

Lemma lstrip_by_nil (s : pystr) :
  lstrip_by f s = [] <-> forallb f s = true.
Proof.
  induction s as [|c s IH]; simpl; [tauto|].
  destruct (f c); simpl; [exact IH|].
  split; discriminate.
Qed.

Lemma forallb_rev (s : pystr) : forallb f (rev s) = forallb f s.
Proof.
  induction s as [|c s IH]; simpl; [reflexivity|].
  rewrite forallb_app, IH. simpl. rewrite andb_true_r. apply andb_comm.
Qed.

Lemma rstrip_by_nil (s : pystr) :
  rstrip_by f s = [] <-> forallb f s = true.
Proof.
  unfold rstrip_by. rewrite <- forallb_rev, <- lstrip_by_nil.
  split; intros H.
  - apply (f_equal (@rev pychar)) in H. now rewrite rev_involutive in H.
  - now rewrite H.
Qed.

Lemma rstrip_by_split (s : pystr) :
  exists ws, s = rstrip_by f s ++ ws /\ forallb f ws = true.
Proof.
  unfold rstrip_by.
  destruct (lstrip_by_split (rev s)) as (ws & Hs & Hws).
  exists (rev ws). split.
  - rewrite <- rev_app_distr, <- Hs. now rewrite rev_involutive.
  - now rewrite forallb_rev.
Qed.

Lemma rstrip_by_last (s body : pystr) (c : pychar) :
  rstrip_by f s = body ++ [c] -> f c = false.
Proof.
  unfold rstrip_by. intros H.
  apply (f_equal (@rev pychar)) in H.
  rewrite rev_involutive, rev_app_distr in H. simpl in H.
  exact (lstrip_by_head _ _ _ H).
Qed.

End StripFacts.

Lemma forallb_blank (s : pystr) : forallb isspace s = true <-> blank s.
Proof. unfold blank. now rewrite forallb_forall, Forall_forall. Qed.

Lemma strip_nil (s : pystr) : strip s = [] <-> blank s.
Proof.
  rewrite <- forallb_blank. unfold strip. rewrite rstrip_by_nil.
  destruct (lstrip_by_split isspace s) as (ws & Hs & Hws).
  split; intros H.
  - apply lstrip_by_nil.
    destruct (lstrip_by isspace s) as [|c rest] eqn:E; [reflexivity|].
    apply lstrip_by_head in E. simpl in H. now rewrite E in H.
  - apply lstrip_by_nil in H. now rewrite H.
Qed.

(* ================================================================= *)
(** ** The markdown block of a page's text *)

(** C4. The block appended for a page's text is the fixed notice exactly
    when the text is empty or whitespace-only; otherwise it is the fence,
    the text cut after its last character that is not whitespace (so that
    the text is this line followed by whitespace only, its beginning
    untouched and the line not empty), and the closing fence. *)
Theorem text_block_cases (text : pystr) :
  (text_block text = [no_text] <-> blank text)
  /\ (~ blank text ->
      text_block text = [fence_open; rstrip text; fence_close]
      /\ (exists ws, text = rstrip text ++ ws /\ blank ws)
      /\ (exists body c, rstrip text = body ++ [c] /\ isspace c = false)).
Proof.
  unfold text_block.
  destruct (strip text) as [|c rest] eqn:E.
  - pose proof (proj1 (strip_nil text) E) as Hb.
    split; [tauto|]. intros Hn. contradiction.
  - assert (Hn : ~ blank text).
    { intros Hb. apply strip_nil in Hb. congruence. }
    split; [split; [discriminate|contradiction]|].
    intros _. split; [reflexivity|]. split.
    + destruct (rstrip_by_split isspace text) as (ws & Hs & Hws).
      exists ws. split; [exact Hs|]. now apply forallb_blank.
    + destruct (rev (rstrip text)) as [|d body] eqn:R.
      * exfalso. apply Hn, forallb_blank, rstrip_by_nil.
        apply (f_equal (@rev pychar)) in R. now rewrite rev_involutive in R.
      * exists (rev body), d.
        assert (Hr : rstrip text = rev body ++ [d]).
        { apply (f_equal (@rev pychar)) in R. now rewrite rev_involutive in R. }
        split; [exact Hr|]. exact (rstrip_by_last _ _ _ _ Hr).
Qed.

(* ================================================================= *)
(** ** Computations and their traces *)

Section TraceFacts.

Lemma writes_app (t u : list event) : writes (t ++ u) = writes t ++ writes u.
Proof.
  induction t as [|ev t IH]; simpl; [reflexivity|].
  destruct ev; simpl; now rewrite IH.
Qed.

Lemma writes_bind {A B} (m : M A) (k : A -> M B) :
  writes (trace m) = [] ->
  (forall a, writes (trace (k a)) = []) ->
  writes (trace (bind m k)) = [].
Proof.
  destruct m as [[e|a] t]; simpl; intros Hm Hk; [exact Hm|].
  specialize (Hk a). destruct (k a) as [r t']. simpl in *.
  now rewrite writes_app, Hm, Hk.
Qed.

Lemma writes_try_except {A} (m : M A) (h : exn -> M A) :
  writes (trace m) = [] ->
  (forall e, writes (trace (h e)) = []) ->
  writes (trace (try_except m h)) = [].
Proof.
  destruct m as [[e|a] t]; simpl; intros Hm Hh; [|exact Hm].
  specialize (Hh e). destruct (h e) as [r t']. simpl in *.
  now rewrite writes_app, Hm, Hh.
Qed.

End TraceFacts.

Section Backends.

Variable cfg : config.
Variable w : world.
Variable repr : pyval -> pystr.

Lemma poll_loop_quiet (fuel : nat) (path url : pystr) (deadline now : Z) (k : nat) :
  writes (trace (poll_loop w repr fuel path url deadline now k)) = [].
Proof.
  revert now k. induction fuel as [|fuel IH]; intros now k; cbn [poll_loop];
    [reflexivity|].
  destruct (now <? deadline)%Z; [|reflexivity].
  apply writes_bind; [reflexivity|]. intros _.
  destruct (poll_body repr (poll_reply w path k)); try reflexivity.
  apply writes_bind; [reflexivity|]. intros _. apply IH.
Qed.

Lemma azure_read_image_quiet (path : pystr) (timeout : Z) :
  writes (trace (azure_read_image cfg w repr path timeout)) = [].
Proof.
  unfold azure_read_image.
  apply writes_bind; [reflexivity|]. intros _.
  apply writes_bind; [reflexivity|]. intros _.
  apply writes_bind; [reflexivity|]. intros resp.
  destruct (negb _); [reflexivity|].
  destruct (headers_get _ _) as [[|c url]|]; try reflexivity.
  apply poll_loop_quiet.
Qed.

Lemma tesseract_quiet (path : pystr) : writes (trace (tesseract w path)) = [].
Proof.
  unfold tesseract.
  apply writes_bind; [reflexivity|]. intros _.
  apply writes_bind; [reflexivity|]. intros _. reflexivity.
Qed.

Lemma ocr_text_quiet (path : pystr) :
  writes (trace (ocr_text cfg w repr path)) = [].
Proof.
  unfold ocr_text.
  destruct (truthy (READ_API cfg)), (pytesseract cfg);
    repeat first
      [ reflexivity
      | apply azure_read_image_quiet
      | apply tesseract_quiet
      | apply writes_try_except; [|intros ?] ].
Qed.

(** The dispatch never raises: each [try] has a handler that returns. *)
Lemma ocr_text_returns (path : pystr) :
  exists text, result (ocr_text cfg w repr path) = inr text.
Proof.
  unfold ocr_text, try_except, result.
  destruct (truthy (READ_API cfg)), (pytesseract cfg);
    try destruct (azure_read_image cfg w repr path 30) as [[ea|ta] tra];
    try destruct (tesseract w path) as [[et|tt] trt];
    simpl; eauto.
Qed.

Lemma pages_loop_quiet (files : list pystr) :
  forall idx docs md,
    writes (trace (pages_loop cfg w repr files idx docs md)) = [].
Proof.
  induction files as [|path rest IH]; intros idx docs md; cbn [pages_loop];
    [reflexivity|].
  apply writes_bind; [reflexivity|]. intros rel.
  apply writes_bind; [apply ocr_text_quiet|]. intros text. apply IH.
Qed.

Lemma pages_loop_raises (files : list pystr) :
  forall idx docs md e,
    result (pages_loop cfg w repr files idx docs md) = inl e ->
    exists name, In name files /\ relpath w name = inl e.
Proof.
  induction files as [|path rest IH]; intros idx docs md e; simpl; [discriminate|].
  unfold lift. destruct (relpath w path) as [e'|rel] eqn:Hrel; simpl.
  - intros [= ->]. exists path. auto.
  - destruct (ocr_text_returns path) as (text & Htext).
    destruct (ocr_text cfg w repr path) as [r t] eqn:Hocr.
    unfold result in Htext. simpl in Htext. subst r. simpl.
    match goal with |- context [pages_loop cfg w repr rest ?i ?d ?m] =>
      specialize (IH i d m e); destruct (pages_loop cfg w repr rest i d m) as [r' t']
    end.
    simpl in *. intros H. destruct (IH H) as (name & Hin & Hname).
    exists name. auto.
Qed.

Lemma pages_loop_spec (files : list pystr) :
  forall idx docs md,
    (forall name, In name files -> exists rel, relpath w name = inr rel) ->
    exists secs newdocs,
      result (pages_loop cfg w repr files idx docs md)
        = inr (docs ++ newdocs, md ++ List.concat secs)
      /\ numbered cfg w repr idx files secs
      /\ List.map metadata_page newdocs = seq idx (List.length files)
      /\ List.map metadata_source newdocs = List.map (path_str cfg) files.
Proof.
  induction files as [|path rest IH]; intros idx docs md Hrel; simpl.
  - exists [], []. simpl. now rewrite !app_nil_r.
  - destruct (Hrel path (or_introl eq_refl)) as (rel & Hp).
    destruct (ocr_text_returns path) as (text & Htext).
    unfold lift. rewrite Hp. simpl.
    destruct (ocr_text cfg w repr path) as [r t] eqn:Hocr.
    unfold result in Htext. simpl in Htext. subst r. simpl.
    match goal with |- context [pages_loop cfg w repr rest ?i ?d ?m] =>
      destruct (IH i d m) as (secs & newdocs & Hres & Hnum & Hpg & Hsrc);
      [intros name Hin; apply Hrel; now right|];
      destruct (pages_loop cfg w repr rest i d m) as [r' t']
    end.
    unfold result in Hres. simpl in Hres. subst r'. simpl.
    exists (page_section idx path (replace_backslash rel) text :: secs),
           (Doc text idx (path_str cfg path) :: newdocs).
    split; [|split; [|split]].
    + unfold result. simpl. f_equal. f_equal.
      * now rewrite <- app_assoc.
      * unfold page_section. now rewrite <- !app_assoc.
    + split; [|exact Hnum]. exists rel, text. auto.
    + simpl. now rewrite Hpg.
    + simpl. now rewrite Hsrc.
Qed.

End Backends.

(* ================================================================= *)
(** ** The order of the files *)

Section StrOrder.

Lemma str_ltb_irrefl (a : pystr) : str_ltb a a = false.
Proof.
  induction a as [|x a IH]; simpl; [reflexivity|].
  now rewrite N.ltb_irrefl.
Qed.

Lemma str_ltb_trans (a b c : pystr) :
  str_ltb a b = true -> str_ltb b c = true -> str_ltb a c = true.
Proof.
  revert b c. induction a as [|x a IH]; intros [|y b] [|z c]; simpl;
    try discriminate; try reflexivity.
  destruct (N.ltb_spec x y), (N.ltb_spec y x), (N.ltb_spec y z),
    (N.ltb_spec z y), (N.ltb_spec x z), (N.ltb_spec z x);
    try discriminate; try reflexivity; try lia.
  apply IH.
Qed.

Lemma str_ltb_total (a b : pystr) :
  str_ltb a b = false -> str_ltb b a = false -> a = b.
Proof.
  revert b. induction a as [|x a IH]; intros [|y b]; simpl;
    try discriminate; try reflexivity.
  destruct (N.ltb_spec x y), (N.ltb_spec y x); try discriminate; try lia.
  intros Hab Hba. f_equal; [lia|]. now apply IH.
Qed.

End StrOrder.

Section SortFacts.

Variable cfg : config.


Lemma not_after_trans (a b c : pystr) : (not_after cfg) a b -> (not_after cfg) b c -> (not_after cfg) a c.
Proof.
  unfold not_after, path_ltb. intros Hab Hbc.
  destruct (str_ltb (path_key cfg c) (path_key cfg a)) eqn:Hca; [|reflexivity].
  destruct (str_ltb (path_key cfg a) (path_key cfg b)) eqn:Hab'.
  - now rewrite (str_ltb_trans _ _ _ Hca Hab') in Hbc.
  - rewrite (str_ltb_total _ _ Hab' Hab) in Hca. congruence.
Qed.

Lemma not_after_total (a b : pystr) : (not_after cfg) a b \/ (not_after cfg) b a.
Proof.
  unfold not_after, path_ltb.
  destruct (str_ltb (path_key cfg b) (path_key cfg a)) eqn:Hba; [|now left].
  right.
  destruct (str_ltb (path_key cfg a) (path_key cfg b)) eqn:Hab; [|reflexivity].
  pose proof (str_ltb_trans _ _ _ Hab Hba) as H.
  now rewrite str_ltb_irrefl in H.
Qed.

Lemma not_after_antisym (a b : pystr) :
  (not_after cfg) a b -> (not_after cfg) b a -> path_key cfg a = path_key cfg b.
Proof. unfold not_after, path_ltb. intros Hab Hba. now apply str_ltb_total. Qed.

Lemma insert_perm (x : pystr) (l : list pystr) :
  Permutation (insert cfg x l) (x :: l).
Proof.
  induction l as [|y l IH]; simpl; [apply Permutation_refl|].
  destruct (path_ltb cfg y x); [|apply Permutation_refl].
  eapply Permutation_trans; [apply perm_skip, IH|apply perm_swap].
Qed.

Lemma sorted_perm (l : list pystr) : Permutation (sorted cfg l) l.
Proof.
  induction l as [|x l IH]; simpl; [constructor|].
  eapply Permutation_trans; [apply insert_perm|now apply perm_skip].
Qed.

Lemma insert_sorted (x : pystr) (l : list pystr) :
  StronglySorted (not_after cfg) l -> StronglySorted (not_after cfg) (insert cfg x l).
Proof.
  induction 1 as [|y l Hl IH Hy]; simpl.
  - repeat constructor.
  - destruct (path_ltb cfg y x) eqn:Hyx.
    + constructor; [exact IH|].
      apply Forall_forall. intros z Hz.
      apply (Permutation_in _ (insert_perm x l)) in Hz. destruct Hz as [<-|Hz].
      * destruct (not_after_total y x) as [H|H]; [exact H|].
        unfold not_after in H. congruence.
      * rewrite Forall_forall in Hy. now apply Hy.
    + constructor; [now constructor|].
      constructor; [exact Hyx|].
      apply Forall_forall. intros z Hz. rewrite Forall_forall in Hy.
      exact (not_after_trans _ _ _ Hyx (Hy z Hz)).
Qed.

Lemma sorted_sorted (l : list pystr) : StronglySorted (not_after cfg) (sorted cfg l).
Proof.
  induction l as [|x l IH]; simpl; [constructor|now apply insert_sorted].
Qed.

(** Two sorted lists with the same elements are the same list, when no
    two elements compare equal. *)
Lemma sorted_unique (l1 : list pystr) :
  forall l2,
    StronglySorted (not_after cfg) l1 -> StronglySorted (not_after cfg) l2 ->
    Permutation l1 l2 -> NoDup (List.map (path_key cfg) l1) ->
    l1 = l2.
Proof.
  induction l1 as [|x l1 IH]; intros l2 S1 S2 P Hnd.
  - now apply Permutation_nil in P.
  - destruct l2 as [|y l2].
    + apply Permutation_sym, Permutation_nil in P. discriminate.
    + inversion S1 as [|? ? S1' F1]; inversion S2 as [|? ? S2' F2]; subst.
      assert (Hxy : x = y).
      { assert (Hx : In x (y :: l2)) by (apply (Permutation_in _ P); now left).
        assert (Hy : In y (x :: l1))
          by (apply (Permutation_in _ (Permutation_sym P)); now left).
        destruct Hx as [->|Hx]; [reflexivity|].
        destruct Hy as [->|Hy]; [reflexivity|].
        rewrite Forall_forall in F1, F2.
        pose proof (not_after_antisym _ _ (F1 y Hy) (F2 x Hx)) as Hk.
        simpl in Hnd. inversion Hnd as [|? ? Hnin _]; subst.
        exfalso. apply Hnin. rewrite Hk. now apply in_map. }
      subst y. f_equal.
      apply IH; [exact S1'|exact S2'|exact (Permutation_cons_inv P)|].
      simpl in Hnd. now inversion Hnd.
Qed.

Lemma filter_perm (f : pystr -> bool) (l1 l2 : list pystr) :
  Permutation l1 l2 -> Permutation (filter f l1) (filter f l2).
Proof.
  induction 1 as [|x l l' _ IH|x y l|l l' l'' _ IH1 _ IH2]; simpl.
  - constructor.
  - destruct (f x); [now constructor|exact IH].
  - destruct (f x), (f y); try apply Permutation_refl. apply perm_swap.
  - eapply Permutation_trans; eassumption.
Qed.

Lemma NoDup_map_filter (f : pystr -> bool) (l : list pystr) :
  NoDup (List.map (path_key cfg) l) ->
  NoDup (List.map (path_key cfg) (filter f l)).
Proof.
  induction l as [|x l IH]; simpl; intros H; [constructor|].
  inversion H as [|? ? Hnin Hnd]; subst.
  destruct (f x); simpl; [|now apply IH].
  constructor; [|now apply IH].
  intros Hin. apply Hnin.
  apply in_map_iff in Hin. destruct Hin as (z & Hz & Hin).
  apply filter_In in Hin. rewrite <- Hz. apply in_map. tauto.
Qed.

Lemma sorted_listing_order (f : pystr -> bool) (l1 l2 : list pystr) :
  Permutation l1 l2 -> NoDup (List.map (path_key cfg) l1) ->
  sorted cfg (filter f l1) = sorted cfg (filter f l2).
Proof.
  intros P Hnd. apply sorted_unique; try apply sorted_sorted.
  - eapply Permutation_trans; [apply sorted_perm|].
    eapply Permutation_trans; [apply filter_perm, P|].
    apply Permutation_sym, sorted_perm.
  - apply (Permutation_NoDup
             (Permutation_map (path_key cfg) (Permutation_sym (sorted_perm (filter f l1))))).
    now apply NoDup_map_filter.
Qed.

End SortFacts.

(* ================================================================= *)
(** ** The remote backend *)

Section StrEq.

Lemma str_eqb_eq (a b : pystr) : str_eqb a b = true <-> a = b.
Proof.
  revert b. induction a as [|x a IH]; intros [|y b]; simpl;
    try (split; [discriminate|discriminate]); [tauto|].
  unfold chr_eqb. rewrite andb_true_iff, N.eqb_eq, IH.
  split; [intros [-> ->]; reflexivity|intros [= -> ->]; auto].
Qed.

Lemma str_eqb_refl (a : pystr) : str_eqb a a = true.
Proof. now apply str_eqb_eq. Qed.

Lemma eq_str_true (v : pyval) (s : pystr) : eq_str v s = true <-> v = PStr s.
Proof.
  destruct v; simpl; try (split; [discriminate|discriminate]).
  rewrite str_eqb_eq. split; [now intros ->|now intros [= ->]].
Qed.

End StrEq.

Section Payload.

Lemma page_lines_shaped (items : list pyval) (ls : list pystr) :
  Forall2 line_of items ls ->
  forall acc, page_lines items acc = inr (acc ++ List.map PStr ls).
Proof.
  induction 1 as [|line s items ls (kvs & -> & Hs) _ IH]; intros acc; simpl.
  - now rewrite app_nil_r.
  - rewrite Hs, IH, <- app_assoc. reflexivity.
Qed.

Lemma all_lines_shaped (items : list pyval) (pages : list (list pystr)) :
  Forall2 page_of items pages ->
  forall acc, all_lines items acc = inr (acc ++ List.map PStr (List.concat pages)).
Proof.
  induction 1 as [|page ls items pages (kvs & lines & -> & Hl & Hls) _ IH];
    intros acc; simpl.
  - now rewrite app_nil_r.
  - rewrite Hl. simpl. rewrite (page_lines_shaped _ _ Hls), IH.
    now rewrite map_app, app_assoc.
Qed.

Lemma join_from_strs (parts : list pystr) (i : nat) :
  join_from i (List.map PStr parts) = inr parts.
Proof.
  revert i. induction parts as [|p parts IH]; intros i; simpl; [reflexivity|].
  now rewrite IH.
Qed.

Lemma succeeded_text_shaped (rj : pyval) (pages : list (list pystr)) :
  succeeded_payload rj pages ->
  succeeded_text rj = inr (join nl (List.concat pages)).
Proof.
  intros (kvs & ar & items & -> & _ & Har & Hrr & Hpages).
  unfold succeeded_text. cbn [dict_get]. rewrite Har. cbn [dict_get].
  rewrite Hrr. cbn [py_iter]. rewrite (all_lines_shaped _ _ Hpages).
  cbn [app].
  unfold join_values. now rewrite join_from_strs.
Qed.

Variable repr : pyval -> pystr.

Lemma poll_body_succeeded (rj : pyval) (pages : list (list pystr)) :
  succeeded_payload rj pages ->
  poll_body repr (GetBody (inr rj)) = Return (join nl (List.concat pages)).
Proof.
  intros H. pose proof (succeeded_text_shaped _ _ H) as Ht.
  destruct H as (kvs & ar & items & -> & Hs & _).
  unfold poll_body. cbn [dict_get]. rewrite Hs.
  cbn [eq_str]. rewrite str_eqb_refl. now rewrite Ht.
Qed.

Lemma poll_body_failed (rj : pyval) :
  failed_payload rj ->
  poll_body repr (GetBody (inr rj)) = Raise (read_failed repr rj).
Proof.
  intros (kvs & -> & Hs). unfold poll_body. cbn [dict_get]. rewrite Hs.
  reflexivity.
Qed.

(** An orderly answer is a success, a failure, or asks to poll again. *)
Lemma poll_body_orderly (reply : get_reply) :
  orderly reply ->
  (exists rj pages,
      reply = GetBody (inr rj) /\ succeeded_payload rj pages
      /\ poll_body repr reply = Return (join nl (List.concat pages)))
  \/ (exists rj,
         reply = GetBody (inr rj) /\ failed_payload rj
         /\ poll_body repr reply = Raise (read_failed repr rj))
  \/ poll_body repr reply = Continue.
Proof.
  intros (kvs & -> & Hshape).
  destruct (lookup (py "status") kvs) as [status|] eqn:Hs.
  - destruct (eq_str status (py "succeeded")) eqn:E1.
    + apply eq_str_true in E1. subst status.
      destruct (Hshape eq_refl) as (pages & Hp).
      left. exists (PDict kvs), pages. repeat split; [exact Hp|].
      now apply poll_body_succeeded.
    + destruct (eq_str status (py "failed")) eqn:E2.
      * apply eq_str_true in E2. subst status.
        right; left. exists (PDict kvs).
        assert (Hf : failed_payload (PDict kvs)) by (exists kvs; auto).
        repeat split; [exact Hf|]. now apply poll_body_failed.
      * right; right. unfold poll_body. cbn [dict_get]. rewrite Hs.
        now rewrite E1, E2.
  - right; right. unfold poll_body. cbn [dict_get]. now rewrite Hs.
Qed.

End Payload.

Section PollLoop.

Variable w : world.
Variable repr : pyval -> pystr.
Variable path url : pystr.
Variable deadline : Z.

Lemma clock_at_grows (k : nat) :
  (clock w path + 500 * Z.of_nat k <= clock_at w path k)%Z.
Proof.
  induction k as [|k IH]; [simpl; lia|].
  cbn [clock_at]. lia.
Qed.

(** While the clock is short of the deadline and the answers ask to poll
    again, the loop polls, sleeps and tests again. *)
Lemma poll_loop_step (fuel k : nat) :
  (clock_at w path k < deadline)%Z ->
  poll_body repr (poll_reply w path k) = Continue ->
  poll_loop w repr (S fuel) path url deadline (clock_at w path k) k
  = (result (poll_loop w repr fuel path url deadline (clock_at w path (S k)) (S k)),
     EvGet url :: EvSleep
       :: trace (poll_loop w repr fuel path url deadline (clock_at w path (S k)) (S k))).
Proof.
  intros Hlt Hc. cbn [poll_loop].
  apply Z.ltb_lt in Hlt. rewrite Hlt, Hc.
  cbn [clock_at].
  destruct (poll_loop w repr fuel path url deadline
              (clock_at w path k + 500 + Z.of_N (lag w path k)) (S k)) as [r t].
  reflexivity.
Qed.

Lemma poll_loop_steps (j : nat) :
  forall fuel,
    (forall i, i < j -> (clock_at w path i < deadline)%Z) ->
    (forall i, i < j -> poll_body repr (poll_reply w path i) = Continue) ->
    forall k, k <= j ->
      result (poll_loop w repr (j - k + fuel) path url deadline (clock_at w path k) k)
      = result (poll_loop w repr fuel path url deadline (clock_at w path j) j).
Proof.
  intros fuel Hclock Hcont k Hk.
  remember (j - k) as d eqn:Hd. revert k Hk Hd.
  induction d as [|d IH]; intros k Hk Hd.
  - assert (k = j) by lia. subst k. reflexivity.
  - cbn [Nat.add]. rewrite poll_loop_step by (try apply Hclock; try apply Hcont; lia).
    unfold result at 1. cbn [fst]. apply IH; lia.
Qed.

Lemma poll_loop_exits (fuel : nat) :
  forall k,
    (deadline - clock_at w path k <= 500 * Z.of_nat fuel)%Z ->
    (forall i, orderly (poll_reply w path i)) ->
    three_exits w repr path deadline k
      (result (poll_loop w repr (S fuel) path url deadline (clock_at w path k) k)).
Proof.
  induction fuel as [|fuel IH]; intros k Hfuel Hord.
  - cbn [poll_loop].
    destruct (Z.ltb_spec (clock_at w path k) deadline) as [Hlt|Hge]; [lia|].
    right; right. split; [reflexivity|]. exists k. repeat split; try lia.
  - destruct (Z.ltb_spec (clock_at w path k) deadline) as [Hlt|Hge].
    + destruct (poll_body_orderly repr _ (Hord k))
        as [(rj & pages & Hr & Hp & Hb)|[(rj & Hr & Hf & Hb)|Hb]].
      * left. exists k, rj, pages. repeat split; try assumption.
        cbn [poll_loop]. apply Z.ltb_lt in Hlt. now rewrite Hlt, Hb.
      * right; left. exists k, rj. repeat split; try assumption.
        cbn [poll_loop]. apply Z.ltb_lt in Hlt. now rewrite Hlt, Hb.
      * rewrite (poll_loop_step _ _ Hlt Hb). unfold result at 1. cbn [fst].
        assert (Hfuel' : (deadline - clock_at w path (S k) <= 500 * Z.of_nat fuel)%Z)
          by (cbn [clock_at]; lia).
        destruct (IH (S k) Hfuel' Hord)
          as [H|[H|(Hr & n & Hn & Hdl & Hbefore)]]; [now left|now right; left|].
        right; right. split; [exact Hr|]. exists n. repeat split; try lia.
        -- destruct (Nat.eq_dec i k) as [->|Hne]; [exact Hlt|].
           apply Hbefore. lia.
        -- destruct (Nat.eq_dec i k) as [->|Hne]; [exact Hb|].
           apply Hbefore. lia.
    + right; right. split.
      * cbn [poll_loop]. apply Z.ltb_ge in Hge. now rewrite Hge.
      * exists k. repeat split; try lia.
Qed.

End PollLoop.

(* ================================================================= *)
(** ** The run *)

Section Run.

Variable cfg : config.
Variable w : world.
Variable repr : pyval -> pystr.

Lemma main_enumeration_fails (e : exn) :
  iterdir w = inl e -> main cfg w repr = (inl e, []).
Proof. intros H. unfold main, list_files, lift. now rewrite H. Qed.

Lemma main_unfold (entries : list pystr) :
  iterdir w = inr entries ->
  main cfg w repr
  = (st <- pages_loop cfg w repr (sorted cfg (filter is_image entries)) 1 [] [title] ;;
     write_text cfg w (join nl (snd st)) ;;;
     tell (EvPrint (summary cfg (List.length (sorted cfg (filter is_image entries)))))).
Proof.
  intros H. unfold main, list_files, lift. rewrite H. cbn [bind ret].
  match goal with |- (let (r, t') := ?m in _) = _ => now destruct m end.
Qed.

(** The end of a run: the write and the summary line, or the write that
    raises and leaves the file empty. *)
Lemma closing_cases (doc line : pystr) :
  (write_text cfg w doc ;;; tell (EvPrint line))
  = if encodable doc
    then (inr tt, [EvWrite (OUTPUT_MD cfg) doc; EvPrint line])
    else (inl (write_error w doc), [EvTruncate (OUTPUT_MD cfg)]).
Proof. unfold write_text. now destruct (encodable doc). Qed.

Lemma main_after_loop (entries : list pystr)
    (st : list Document * list pystr) (tr : list event) :
  iterdir w = inr entries ->
  pages_loop cfg w repr (sorted cfg (filter is_image entries)) 1 [] [title]
  = (inr st, tr) ->
  main cfg w repr
  = if encodable (join nl (snd st))
    then (inr tt,
          tr ++ [EvWrite (OUTPUT_MD cfg) (join nl (snd st));
                 EvPrint (summary cfg
                            (List.length (sorted cfg (filter is_image entries))))])
    else (inl (write_error w (join nl (snd st))),
          tr ++ [EvTruncate (OUTPUT_MD cfg)]).
Proof.
  intros Hdir Hloop. rewrite (main_unfold _ Hdir), Hloop. cbn [bind].
  rewrite closing_cases. now destruct (encodable (join nl (snd st))).
Qed.

(** A run that lists the folder and finds every relative path reaches the
    write with the title and the sections of the files. *)
Lemma main_completes (entries : list pystr) :
  iterdir w = inr entries ->
  (forall name, In name (sorted cfg (filter is_image entries)) ->
     exists rel, relpath w name = inr rel) ->
  exists secs docs tr,
    pages_loop cfg w repr (sorted cfg (filter is_image entries)) 1 [] [title]
      = (inr (docs, title :: List.concat secs), tr)
    /\ main cfg w repr
       = (if encodable (join nl (title :: List.concat secs))
          then (inr tt,
                tr ++ [EvWrite (OUTPUT_MD cfg) (join nl (title :: List.concat secs));
                       EvPrint (summary cfg
                                  (List.length (sorted cfg (filter is_image entries))))])
          else (inl (write_error w (join nl (title :: List.concat secs))),
                tr ++ [EvTruncate (OUTPUT_MD cfg)]))
    /\ writes tr = []
    /\ numbered cfg w repr 1 (sorted cfg (filter is_image entries)) secs
    /\ List.map metadata_page docs
       = seq 1 (List.length (sorted cfg (filter is_image entries))).
Proof.
  intros Hdir Hrel.
  destruct (pages_loop_spec cfg w repr _ 1 [] [title] Hrel)
    as (secs & docs & Hres & Hnum & Hpg & _).
  pose proof (pages_loop_quiet cfg w repr
                (sorted cfg (filter is_image entries)) 1 [] [title]) as Hq.
  destruct (pages_loop cfg w repr _ 1 [] [title]) as [r tr] eqn:Hloop.
  unfold result, trace in *. cbn [fst snd] in *. subst r.
  exists secs, docs, tr. cbn [app] in *.
  split; [reflexivity|]. split; [|auto].
  exact (main_after_loop entries _ tr Hdir Hloop).
Qed.

(** What a run that raises has done to the output file: nothing, when
    the exception is that of the listing or of a relative path; emptied
    it, when the exception is that of the write. *)
Lemma main_raises (e : exn) :
  result (main cfg w repr) = inl e ->
  (writes (trace (main cfg w repr)) = []
   /\ (iterdir w = inl e \/ exists name, relpath w name = inl e))
  \/ (exists files st tr,
         result (list_files cfg w) = inr files
         /\ pages_loop cfg w repr files 1 [] [title] = (inr st, tr)
         /\ writes tr = []
         /\ encodable (join nl (snd st)) = false
         /\ e = write_error w (join nl (snd st))
         /\ trace (main cfg w repr) = tr ++ [EvTruncate (OUTPUT_MD cfg)]).
Proof.
  destruct (iterdir w) as [e'|entries] eqn:Hdir.
  - rewrite (main_enumeration_fails _ Hdir). cbn. intros [= ->]. left. auto.
  - pose proof (pages_loop_quiet cfg w repr
                  (sorted cfg (filter is_image entries)) 1 [] [title]) as Hq.
    pose proof (pages_loop_raises cfg w repr
                  (sorted cfg (filter is_image entries)) 1 [] [title] e) as Hr.
    destruct (pages_loop cfg w repr (sorted cfg (filter is_image entries)) 1 [] [title])
      as [[e'|st] tr] eqn:Hloop.
    + rewrite (main_unfold _ Hdir), Hloop. cbn. intros [= ->]. left.
      split; [exact Hq|]. right.
      destruct (Hr eq_refl) as (name & _ & Hname). eauto.
    + rewrite (main_after_loop entries st tr Hdir Hloop).
      destruct (encodable (join nl (snd st))) eqn:Henc; cbn; [discriminate|].
      intros [= <-]. right.
      exists (sorted cfg (filter is_image entries)), st, tr.
      unfold list_files, lift. rewrite Hdir. cbn. repeat split; auto.
Qed.

(** A run that completes made one write, of a document that encodes. *)
Lemma main_returns :
  result (main cfg w repr) = inr tt ->
  exists files st tr,
    result (list_files cfg w) = inr files
    /\ pages_loop cfg w repr files 1 [] [title] = (inr st, tr)
    /\ writes tr = []
    /\ encodable (join nl (snd st)) = true
    /\ trace (main cfg w repr)
       = tr ++ [EvWrite (OUTPUT_MD cfg) (join nl (snd st));
                EvPrint (summary cfg (List.length files))].
Proof.
  destruct (iterdir w) as [e'|entries] eqn:Hdir.
  - rewrite (main_enumeration_fails _ Hdir). discriminate.
  - pose proof (pages_loop_quiet cfg w repr
                  (sorted cfg (filter is_image entries)) 1 [] [title]) as Hq.
    destruct (pages_loop cfg w repr (sorted cfg (filter is_image entries)) 1 [] [title])
      as [[e'|st] tr] eqn:Hloop.
    + rewrite (main_unfold _ Hdir), Hloop. discriminate.
    + rewrite (main_after_loop entries st tr Hdir Hloop).
      destruct (encodable (join nl (snd st))) eqn:Henc; cbn; [|discriminate].
      intros _. exists (sorted cfg (filter is_image entries)), st, tr.
      unfold list_files, lift. rewrite Hdir. cbn. repeat split; auto.
Qed.

Lemma numbered_length (idx : nat) (files : list pystr) :
  forall secs, numbered cfg w repr idx files secs ->
               List.length secs = List.length files.
Proof.
  revert idx. induction files as [|name files IH]; intros idx [|sec secs]; simpl;
    try tauto.
  intros [_ H]. f_equal. exact (IH _ _ H).
Qed.

Lemma numbered_nth (files : list pystr) :
  forall idx secs i name,
    numbered cfg w repr idx files secs ->
    nth_error files i = Some name ->
    exists rel text,
      relpath w name = inr rel
      /\ result (ocr_text cfg w repr name) = inr text
      /\ nth_error secs i
         = Some (page_section (idx + i) name (replace_backslash rel) text).
Proof.
  induction files as [|f files IH]; intros idx [|sec secs] [|i] name; simpl;
    try tauto; try discriminate.
  - intros [(rel & text & Hrel & Htext & ->) _] [= ->].
    exists rel, text. now rewrite Nat.add_0_r.
  - intros [_ H] Hn. destruct (IH _ _ _ _ H Hn) as (rel & text & H1 & H2 & H3).
    exists rel, text. now rewrite Nat.add_succ_r.
Qed.

Lemma numbered_headings (files : list pystr) :
  forall idx secs,
    numbered cfg w repr idx files secs ->
    List.map (hd []) secs
    = List.map (fun p => heading (fst p) (snd p))
        (combine (seq idx (List.length files)) files).
Proof.
  induction files as [|f files IH]; intros idx [|sec secs]; simpl; try tauto.
  intros [(rel & text & _ & _ & ->) H]. simpl. f_equal. exact (IH _ _ H).
Qed.

End Run.

(* ================================================================= *)
(** ** The submission and the budget of the loop *)

Section Polling.

Variable cfg : config.
Variable w : world.
Variable repr : pyval -> pystr.
Variable path : pystr.
Variable timeout : Z.

Lemma clock_at_mono (i k : nat) :
  i <= k -> (clock_at w path i <= clock_at w path k)%Z.
Proof.
  induction 1 as [|k _ IH]; [lia|]. cbn [clock_at]. lia.
Qed.

(** An accepted submission enters the loop, with the budget of passes
    that the timeout allows. *)
Lemma azure_read_image_accepted (resp : response) (url : pystr) :
  open_rb w path = inr tt ->
  post_reply w path = inr resp ->
  status_code resp = 202%N ->
  headers_get (headers resp) (py "Operation-Location") = Some url ->
  url <> [] ->
  azure_read_image cfg w repr path timeout
  = (result (poll_loop w repr (poll_budget timeout) path url
               (clock w path + timeout * 1000) (clock w path) 0),
     EvPost (READ_API cfg) path
       :: trace (poll_loop w repr (poll_budget timeout) path url
                   (clock w path + timeout * 1000) (clock w path) 0)).
Proof.
  intros Hopen Hpost Hs Hh Hurl. unfold azure_read_image, lift.
  rewrite Hopen, Hpost. cbn [bind tell fst snd app].
  apply N.eqb_eq in Hs. rewrite Hs, Hh. cbn [negb].
  destruct url as [|c url]; [contradiction|].
  now destruct (poll_loop w repr _ path (c :: url) _ _ 0).
Qed.

Lemma submission_rejected_pair (resp : response) :
  open_rb w path = inr tt ->
  post_reply w path = inr resp ->
  (status_code resp <> 202%N ->
     azure_read_image cfg w repr path timeout
     = (inl (api_error resp), [EvPost (READ_API cfg) path]))
  /\ (status_code resp = 202%N ->
      headers_get (headers resp) (py "Operation-Location") = None ->
      azure_read_image cfg w repr path timeout
      = (inl missing_location, [EvPost (READ_API cfg) path])).
Proof.
  intros Hopen Hpost. unfold azure_read_image, lift.
  rewrite Hopen, Hpost. cbn [bind tell fst snd app].
  split.
  - intros Hs. apply N.eqb_neq in Hs. rewrite Hs. reflexivity.
  - intros Hs Hh. apply N.eqb_eq in Hs. rewrite Hs, Hh. reflexivity.
Qed.

Lemma poll_budget_enough :
  (clock w path + timeout * 1000 - clock_at w path 0
   <= 500 * Z.of_nat (Z.to_nat (timeout * 1000 / 500 + 1)))%Z.
Proof.
  cbn [clock_at].
  destruct (Z.le_gt_cases 0 (timeout * 1000)) as [Hpos|Hneg].
  - pose proof (Z.div_pos (timeout * 1000) 500 Hpos ltac:(lia)).
    rewrite Z2Nat.id by lia.
    pose proof (Z.mul_succ_div_gt (timeout * 1000) 500 ltac:(lia)). lia.
  - lia.
Qed.

Lemma poll_budget_covers (k : nat) :
  (clock_at w path k < clock w path + timeout * 1000)%Z ->
  exists fuel, poll_budget timeout = k - 0 + S fuel.
Proof.
  intros Hlt. pose proof (clock_at_grows w path k) as Hg.
  unfold poll_budget.
  assert (Hk : (Z.of_nat k <= timeout * 1000 / 500)%Z).
  { apply Z.div_le_lower_bound; lia. }
  exists (Z.to_nat (timeout * 1000 / 500 + 1) - k). lia.
Qed.

End Polling.

(* ================================================================= *)
(** ** The dispatch between the two backends (C1, C9) *)

(** C1. The text of a page follows the decision table of the dispatch.
    With the remote backend configured: its text when it succeeds; when
    it fails with [ea], the local text if the local backend is there and
    succeeds, the message naming both failures if it fails too, and the
    message naming the remote failure alone if there is no local backend.
    With the remote backend not configured: the local text, or the
    message naming the local failure, when the local backend is there,
    and the fixed notice, with no backend called, when it is not. *)
Theorem dispatch_table (cfg : config) (w : world) (repr : pyval -> pystr)
    (path : pystr) :
  let remote := result (azure_read_image cfg w repr path 30) in
  let locl := result (tesseract w path) in
  let text := result (ocr_text cfg w repr path) in
  (truthy (READ_API cfg) = true ->
     (forall t, remote = inr t -> text = inr t)
     /\ (forall ea, remote = inl ea ->
           (pytesseract cfg = true ->
              (forall t, locl = inr t -> text = inr t)
              /\ (forall et, locl = inl et ->
                    text = inr (py "_Error during OCR: Azure error: " ++ exn_str ea
                                  ++ py "; Tesseract error: " ++ exn_str et
                                  ++ py "_")))
           /\ (pytesseract cfg = false ->
                 text = inr (py "_Error during OCR: Azure error: " ++ exn_str ea
                               ++ py "_"))))
  /\ (truthy (READ_API cfg) = false ->
        (pytesseract cfg = true ->
           (forall t, locl = inr t -> text = inr t)
           /\ (forall e, locl = inl e ->
                 text = inr (py "_Tesseract error: " ++ exn_str e ++ py "_")))
        /\ (pytesseract cfg = false ->
              ocr_text cfg w repr path
              = (inr (py "_No OCR backend available. Set AZURE_OCR_* or install pytesseract and Tesseract executable._"),
                 []))).
Proof.
  cbv zeta. unfold ocr_text, try_except, result.
  destruct (azure_read_image cfg w repr path 30) as [[ea|ta] tra];
    destruct (tesseract w path) as [[et|tt] trt];
    destruct (truthy (READ_API cfg)), (pytesseract cfg); cbn;
    repeat split; intros; try discriminate; try congruence;
    repeat match goal with
      | H : inl _ = inl _ |- _ => injection H as <-
      end;
    reflexivity.
Qed.

(** The rows of the table on sample surroundings: the remote text, the
    local text after a remote failure, the remote failure alone, and the
    local failure. *)
Example sample_dispatch_rows :
  result (ocr_text Sample.azure_only Sample.folder Sample.sample_repr (py "a.jpg"))
    = inr (py "A" ++ nl ++ py "B")
  /\ result (azure_read_image Sample.azure_and_local (Sample.fails_after 3)
               Sample.sample_repr (py "a.jpg") 30)
     = inl (read_failed Sample.sample_repr Sample.failed)
  /\ result (ocr_text Sample.azure_and_local (Sample.fails_after 3)
               Sample.sample_repr (py "a.jpg"))
     = inr (py "local text")
  /\ ocr_text Sample.nothing Sample.folder Sample.sample_repr (py "a.jpg")
     = (inr no_backend, [])
  /\ result (ocr_text Sample.azure_and_local Sample.not_json Sample.sample_repr (py "a.jpg"))
     = inr (py "local text")
  /\ result (ocr_text Sample.azure_only Sample.not_json Sample.sample_repr (py "a.jpg"))
     = inr (py "_Error during OCR: Azure error: Expecting value: line 1 column 1 (char 0)_")
  /\ result (ocr_text Sample.local_only Sample.folder Sample.sample_repr (py "dir.gif"))
     = inr (py "_Tesseract error: [Errno 21] Is a directory_").
Proof. repeat split; vm_compute; reflexivity. Qed.

(** C9. Whatever the remote attempt raises, the dispatch returns a text:
    an exception of the attempt, a failed request and a body that is not
    JSON included, goes to the handler, which takes the local text or
    builds the error message.  So the loop over the files ends normally
    whenever the relative paths are found, whatever the service answers,
    and a run raises only what the listing, a relative path or the final
    write raised: never an exception of the remote backend. *)
Theorem remote_exceptions_caught (cfg : config) (w : world)
    (repr : pyval -> pystr) :
  (forall path, exists text, result (ocr_text cfg w repr path) = inr text)
  /\ (forall path ea,
        truthy (READ_API cfg) = true ->
        result (azure_read_image cfg w repr path 30) = inl ea ->
        result (ocr_text cfg w repr path)
        = inr (if pytesseract cfg then
                 match result (tesseract w path) with
                 | inr t => t
                 | inl et => both_failed ea et
                 end
               else azure_failed ea))
  /\ (forall e, poll_body repr (GetRaises e) = Raise e
                /\ poll_body repr (GetBody (inl e)) = Raise e)
  /\ (forall files,
        (forall name, In name files -> exists rel, relpath w name = inr rel) ->
        exists st, result (pages_loop cfg w repr files 1 [] [title]) = inr st)
  /\ (forall files idx docs md e,
        result (pages_loop cfg w repr files idx docs md) = inl e ->
        exists name, In name files /\ relpath w name = inl e)
  /\ (forall e, result (main cfg w repr) = inl e ->
                iterdir w = inl e
                \/ (exists name, relpath w name = inl e)
                \/ (exists doc, encodable doc = false /\ e = write_error w doc)).
Proof.
  split; [apply ocr_text_returns|].
  split.
  { intros path ea Hapi Hr. unfold ocr_text, try_except, result in *.
    rewrite Hapi.
    destruct (azure_read_image cfg w repr path 30) as [[e|t] tra];
      cbn in Hr; [injection Hr as ->|discriminate].
    destruct (pytesseract cfg); [|reflexivity].
    now destruct (tesseract w path) as [[et|t] trt]. }
  split; [intros e; split; reflexivity|].
  split.
  { intros files Hrel.
    destruct (pages_loop_spec cfg w repr files 1 [] [title] Hrel)
      as (secs & docs & Hres & _).
    eauto. }
  split; [apply pages_loop_raises|].
  intros e He.
  destruct (main_raises cfg w repr e He)
    as [(_ & [H|H])|(files & st & tr & _ & _ & _ & Henc & -> & _)]; auto.
  right; right. eauto.
Qed.

(* ================================================================= *)
(** ** The submission (C6) *)

(** C6. When the POST is answered with a status other than 202, the
    backend raises at once the error that prints the status code and the
    body; when it is answered 202 without an Operation-Location header,
    it raises at once too.  In both cases the trace holds the POST alone:
    no poll was made. *)
Theorem submission_rejected (cfg : config) (w : world) (repr : pyval -> pystr)
    (path : pystr) (timeout : Z) (resp : response) :
  open_rb w path = inr tt ->
  post_reply w path = inr resp ->
  (status_code resp <> 202%N ->
     azure_read_image cfg w repr path timeout
     = (inl (Exn RuntimeError
               (py "Azure Read API error: " ++ str_of_N (status_code resp)
                  ++ py " " ++ text resp)),
        [EvPost (READ_API cfg) path]))
  /\ (status_code resp = 202%N ->
      headers_get (headers resp) (py "Operation-Location") = None ->
      azure_read_image cfg w repr path timeout
      = (inl (Exn RuntimeError
                (py "Missing Operation-Location header from Azure response")),
         [EvPost (READ_API cfg) path])).
Proof. exact (submission_rejected_pair cfg w repr path timeout resp). Qed.

Lemma submission_rejected_witness :
  azure_read_image Sample.azure_only
    (Sample.with_service (inr (Response 429 (py "slow down") []))
       (fun _ => GetBody (inr Sample.running)))
    Sample.sample_repr (py "a.jpg") 30
  = (inl (Exn RuntimeError
            (py "Azure Read API error: " ++ str_of_N 429 ++ py " " ++ py "slow down")),
     [EvPost (READ_API Sample.azure_only) (py "a.jpg")]).
Proof.
  apply (proj1 (submission_rejected Sample.azure_only
                  (Sample.with_service (inr (Response 429 (py "slow down") []))
                     (fun _ => GetBody (inr Sample.running)))
                  Sample.sample_repr (py "a.jpg") 30
                  (Response 429 (py "slow down") []) eq_refl eq_refl)).
  discriminate.
Defined.

(* ================================================================= *)
(** ** The output file (C2, C7) *)

(** C2, the run that refutes the claim as it was written.  The folder
    holds one matching file, whose name is no UTF-8 and shows with a lone
    surrogate.  The run builds the document with the one section, whose
    heading holds the name; UTF-8 refuses it, the write raises, and the
    output file is left empty: it holds no section at all. *)
Lemma undecodable_name_empties_output :
  result (list_files Sample.azure_only MoreSamples.undecodable_name)
  = inr [56548%N :: py ".png"]
  /\ result (pages_loop Sample.azure_only MoreSamples.undecodable_name
               Sample.sample_repr [56548%N :: py ".png"] 1 [] [title])
     = inr ([Doc (py "A" ++ nl ++ py "B") 1
               (path_str Sample.azure_only (56548%N :: py ".png"))],
            [title;
             py "## Page 1" ++ [32; 226; 8364; 8221; 32; 56548]%N
               ++ py ".png" ++ nl;
             py "![" ++ [56548%N] ++ py ".png](../images/" ++ [56548%N]
               ++ py ".png)" ++ nl;
             py "```text"; py "A" ++ nl ++ py "B"; py "```" ++ nl])
  /\ result (main Sample.azure_only MoreSamples.undecodable_name
               Sample.sample_repr)
     = inl (Exn (Raised (py "UnicodeEncodeError"))
              (py "'utf-8' codec can't encode character '\udce4' in position 28: surrogates not allowed"))
  /\ writes (trace (main Sample.azure_only MoreSamples.undecodable_name
                      Sample.sample_repr))
     = [(py "/srv/docpoc/output.md", [])].
Proof. repeat split; vm_compute; reflexivity. Qed.

(** C2, amended.  When the folder lists and every relative path is found,
    the run accumulates the title followed by one section per matching
    file, N sections for N matching files.  The i-th section (from 0) is
    that of the i-th file of the sorted list: it opens with the heading
    [## Page], the number i+1 in decimal, the dash of the source and the
    file's name, its second line is the image link to the file's relative
    path with every backslash turned into a slash, and the block of the
    file's OCR text follows.  So the headings are those of the numbers
    1..N paired with the sorted files, in this order.  The sorted list
    holds the matching entries, each once, placed so that none compares
    greater than a later one as pathlib compares paths.  This document is
    what the run writes: the output file is left holding it, the run
    ending normally, when UTF-8 can encode it; otherwise the write raises
    and leaves the output file empty. *)
Theorem page_sections_numbered (cfg : config) (w : world)
    (repr : pyval -> pystr) (entries : list pystr) :
  iterdir w = inr entries ->
  (forall name, In name entries -> is_image name = true ->
     exists rel, relpath w name = inr rel) ->
  let files := sorted cfg (filter is_image entries) in
  let N := List.length (filter is_image entries) in
  exists secs : list (list pystr),
    List.length secs = N
    /\ (forall i name,
          nth_error files i = Some name ->
          exists rel text,
            relpath w name = inr rel
            /\ result (ocr_text cfg w repr name) = inr text
            /\ nth_error secs i
               = Some ((py "## Page " ++ str_of_nat (S i)
                          ++ [32; 226; 8364; 8221; 32]%N ++ name ++ nl)
                         :: image_ref name (replace_backslash rel)
                         :: text_block text))
    /\ List.map (hd []) secs
       = List.map
           (fun p => py "## Page " ++ str_of_nat (fst p)
                       ++ [32; 226; 8364; 8221; 32]%N ++ snd p ++ nl)
           (combine (seq 1 N) files)
    /\ Permutation files (filter is_image entries)
    /\ StronglySorted
         (fun a b => str_ltb (path_key cfg b) (path_key cfg a) = false) files
    /\ (encodable (join nl (title :: List.concat secs)) = true ->
        result (main cfg w repr) = inr tt
        /\ writes (trace (main cfg w repr))
           = [(OUTPUT_MD cfg, join nl (title :: List.concat secs))])
    /\ (encodable (join nl (title :: List.concat secs)) = false ->
        result (main cfg w repr)
        = inl (write_error w (join nl (title :: List.concat secs)))
        /\ writes (trace (main cfg w repr)) = [(OUTPUT_MD cfg, [])]).
Proof.
  intros Hdir Hrel files N.
  assert (HN : List.length files = N).
  { apply Permutation_length, sorted_perm. }
  destruct (main_completes cfg w repr entries Hdir)
    as (secs & docs & tr & _ & Hm & Hq & Hnum & _).
  { intros name Hin.
    apply (Permutation_in _ (sorted_perm cfg _)) in Hin.
    apply filter_In in Hin. now apply Hrel. }
  fold files in Hm, Hnum.
  exists secs.
  split; [rewrite <- HN; exact (numbered_length _ _ _ _ _ _ Hnum)|].
  split.
  { intros i name Hi.
    destruct (numbered_nth _ _ _ _ _ _ _ _ Hnum Hi) as (rel & text & Hr & Ht & Hs).
    exists rel, text. auto. }
  split; [rewrite <- HN; exact (numbered_headings _ _ _ _ _ _ Hnum)|].
  split; [apply sorted_perm|].
  split; [apply sorted_sorted|].
  rewrite Hm. split; intros ->; unfold result, trace; cbn [fst snd];
    rewrite writes_app, Hq; auto.
Qed.

Lemma page_sections_numbered_witness :
  exists secs : list (list pystr),
    writes (trace (main Sample.azure_only Sample.folder Sample.sample_repr))
    = [(py "/srv/docpoc/output.md", join nl (title :: List.concat secs))]
    /\ List.map (hd []) secs
       = [py "## Page 1" ++ [32; 226; 8364; 8221; 32]%N ++ py "a.jpg" ++ nl;
          py "## Page 2" ++ [32; 226; 8364; 8221; 32]%N ++ py "b.PNG" ++ nl;
          py "## Page 3" ++ [32; 226; 8364; 8221; 32]%N ++ py "dir.gif" ++ nl].
Proof.
  destruct (page_sections_numbered Sample.azure_only Sample.folder
              Sample.sample_repr
              [py "b.PNG"; py "notes.txt"; py "a.jpg"; py ".png"; py "dir.gif"]
              eq_refl)
    as (secs & Hlen & Hsec & Hh & _ & _ & Hok & _).
  - intros name _ _. eexists. reflexivity.
  - exists secs. split; [|exact Hh].
    apply Hok.
    destruct secs as [|s1 [|s2 [|s3 [|s4 secs]]]]; try discriminate Hlen.
    destruct (Hsec 0 (py "a.jpg") eq_refl) as (r1 & t1 & R1 & H1 & E1).
    destruct (Hsec 1 (py "b.PNG") eq_refl) as (r2 & t2 & R2 & H2 & E2).
    destruct (Hsec 2 (py "dir.gif") eq_refl) as (r3 & t3 & R3 & H3 & E3).
    cbn in E1, E2, E3. injection E1 as ->. injection E2 as ->. injection E3 as ->.
    vm_compute in R1, R2, R3, H1, H2, H3.
    injection R1 as <-. injection R2 as <-. injection R3 as <-.
    injection H1 as <-. injection H2 as <-. injection H3 as <-.
    reflexivity.
Defined.

(** The whole document of a run with no backend at all, on the Windows
    flavour: three pages, each with the fixed notice in its code block. *)
Example sample_document :
  main Sample.nothing Sample.folder Sample.sample_repr
  = (inr tt,
     [EvWrite (py "C:\docpoc\output.md")
        (join nl
           [title;
            heading 1 (py "a.jpg"); image_ref (py "a.jpg") (py "../images/a.jpg");
            fence_open; no_backend; fence_close;
            heading 2 (py "b.PNG"); image_ref (py "b.PNG") (py "../images/b.PNG");
            fence_open; no_backend; fence_close;
            heading 3 (py "dir.gif"); image_ref (py "dir.gif") (py "../images/dir.gif");
            fence_open; no_backend; fence_close]);
      EvPrint (py "Wrote 3 pages to C:\docpoc\output.md")]).
Proof. vm_compute. reflexivity. Qed.

(** C7, the run that refutes the claim as it was written.  The service
    recognises in the one image a line that holds a lone surrogate; the
    loop ends, [write_text] opens the output file and
    UTF-8 refuses the document.  The run aborts with the encoder's
    exception and without the closing line, and the output file is left
    there, empty. *)
Lemma write_abort_leaves_empty_file :
  result (main Sample.azure_only MoreSamples.lone_surrogate Sample.sample_repr)
  = inl (Exn (Raised (py "UnicodeEncodeError"))
           (py "'utf-8' codec can't encode character '\ud83d' in position 70: surrogates not allowed"))
  /\ writes (trace (main Sample.azure_only MoreSamples.lone_surrogate
                      Sample.sample_repr))
     = [(py "/srv/docpoc/output.md", [])]
  /\ last (trace (main Sample.azure_only MoreSamples.lone_surrogate
                    Sample.sample_repr)) (EvPrint [])
     = EvTruncate (py "/srv/docpoc/output.md")
  /\ result (ocr_text Sample.azure_only MoreSamples.lone_surrogate
               Sample.sample_repr (py "a.jpg"))
     = inr [55357%N].
Proof. vm_compute. repeat split; reflexivity. Qed.

(** C7, amended.  The output file is opened at most once in a run, and
    only after the loop over all the files.  A run whose enumeration fails
    raises with an empty trace.  A run that raises either raised what the
    listing or a relative path raised, and then it touched no file, or it
    raised in the final write, UTF-8 refusing the document, and then its
    last act was to open the output file, which is left empty.  A run that
    completes has made one write, after the loop, of the lines the loop
    accumulated, joined by newlines, and that document is encodable. *)
Theorem output_written_once (cfg : config) (w : world) (repr : pyval -> pystr) :
  List.length (writes (trace (main cfg w repr))) <= 1
  /\ (forall e, iterdir w = inl e -> main cfg w repr = (inl e, []))
  /\ (forall e, result (main cfg w repr) = inl e ->
        (writes (trace (main cfg w repr)) = []
         /\ (iterdir w = inl e \/ exists name, relpath w name = inl e))
        \/ (exists files st tr,
              result (list_files cfg w) = inr files
              /\ pages_loop cfg w repr files 1 [] [title] = (inr st, tr)
              /\ writes tr = []
              /\ encodable (join nl (snd st)) = false
              /\ e = write_error w (join nl (snd st))
              /\ trace (main cfg w repr) = tr ++ [EvTruncate (OUTPUT_MD cfg)]
              /\ writes (trace (main cfg w repr)) = [(OUTPUT_MD cfg, [])]))
  /\ (result (main cfg w repr) = inr tt ->
      exists files st tr,
        result (list_files cfg w) = inr files
        /\ pages_loop cfg w repr files 1 [] [title] = (inr st, tr)
        /\ writes tr = []
        /\ encodable (join nl (snd st)) = true
        /\ trace (main cfg w repr)
           = tr ++ [EvWrite (OUTPUT_MD cfg) (join nl (snd st));
                    EvPrint (summary cfg (List.length files))]
        /\ writes (trace (main cfg w repr))
           = [(OUTPUT_MD cfg, join nl (snd st))]).
Proof.
  assert (Hraise : forall e, result (main cfg w repr) = inl e ->
        (writes (trace (main cfg w repr)) = []
         /\ (iterdir w = inl e \/ exists name, relpath w name = inl e))
        \/ (exists files st tr,
              result (list_files cfg w) = inr files
              /\ pages_loop cfg w repr files 1 [] [title] = (inr st, tr)
              /\ writes tr = []
              /\ encodable (join nl (snd st)) = false
              /\ e = write_error w (join nl (snd st))
              /\ trace (main cfg w repr) = tr ++ [EvTruncate (OUTPUT_MD cfg)]
              /\ writes (trace (main cfg w repr)) = [(OUTPUT_MD cfg, [])])).
  { intros e He.
    destruct (main_raises cfg w repr e He)
      as [H|(files & st & tr & H1 & H2 & H3 & H4 & H5 & H6)]; [now left|].
    right. exists files, st, tr. repeat split; auto.
    rewrite H6, writes_app, H3. reflexivity. }
  assert (Hret : result (main cfg w repr) = inr tt ->
      exists files st tr,
        result (list_files cfg w) = inr files
        /\ pages_loop cfg w repr files 1 [] [title] = (inr st, tr)
        /\ writes tr = []
        /\ encodable (join nl (snd st)) = true
        /\ trace (main cfg w repr)
           = tr ++ [EvWrite (OUTPUT_MD cfg) (join nl (snd st));
                    EvPrint (summary cfg (List.length files))]
        /\ writes (trace (main cfg w repr))
           = [(OUTPUT_MD cfg, join nl (snd st))]).
  { intros Hr.
    destruct (main_returns cfg w repr Hr)
      as (files & st & tr & H1 & H2 & H3 & H4 & H5).
    exists files, st, tr. repeat split; auto.
    rewrite H5, writes_app, H3. reflexivity. }
  split; [|split; [apply main_enumeration_fails|split; assumption]].
  destruct (result (main cfg w repr)) as [e|[]] eqn:Hres.
  - destruct (Hraise e eq_refl) as [[E _]|(fs & st & tr & _ & _ & _ & _ & _ & _ & E)];
      rewrite E; cbn; lia.
  - destruct (Hret eq_refl) as (fs & st & tr & _ & _ & _ & _ & _ & E).
    rewrite E; cbn; lia.
Qed.

(* ================================================================= *)
(** ** The poll loop (C3, C5) *)

(** C3. When the submission was accepted, the polls before the k-th
    asked to poll again, the k-th test finds the deadline ahead and the
    k-th poll answers a succeeded payload with the pages [pages], the
    backend returns the lines of all the pages, in the order of the
    payload, joined by the newline character. *)
Theorem succeeded_returns_lines (cfg : config) (w : world)
    (repr : pyval -> pystr) (path : pystr) (timeout : Z)
    (resp : response) (url : pystr) (k : nat) (rj : pyval)
    (pages : list (list pystr)) :
  open_rb w path = inr tt ->
  post_reply w path = inr resp ->
  status_code resp = 202%N ->
  headers_get (headers resp) (py "Operation-Location") = Some url ->
  url <> [] ->
  (forall i, i < k -> poll_body repr (poll_reply w path i) = Continue) ->
  (clock_at w path k < clock w path + timeout * 1000)%Z ->
  poll_reply w path k = GetBody (inr rj) ->
  succeeded_payload rj pages ->
  result (azure_read_image cfg w repr path timeout)
  = inr (join nl (List.concat pages)).
Proof.
  intros Hopen Hpost Hs Hh Hurl Hcont Hlt Hk Hp.
  rewrite (azure_read_image_accepted cfg w repr path timeout resp url)
    by assumption.
  unfold result at 1. cbn [fst].
  destruct (poll_budget_covers w path timeout k Hlt) as (fuel & ->).
  rewrite (poll_loop_steps w repr path url _ k (S fuel)); try assumption; try lia.
  - cbn [poll_loop]. apply Z.ltb_lt in Hlt. rewrite Hlt, Hk.
    now rewrite (poll_body_succeeded repr _ _ Hp).
  - intros i Hi. pose proof (clock_at_mono w path i k ltac:(lia)). lia.
Qed.

Lemma succeeded_returns_lines_witness :
  result (azure_read_image Sample.azure_only Sample.folder Sample.sample_repr
            (py "a.jpg") 30)
  = inr (join nl (List.concat [[py "A"; py "B"]]))
  /\ join nl (List.concat [[py "A"; py "B"]]) = [65; 10; 66]%N.
Proof.
  split; [|reflexivity].
  apply (succeeded_returns_lines Sample.azure_only Sample.folder
           Sample.sample_repr (py "a.jpg") 30 Sample.accepted
           (py "https://azure.test/op/1") 2
           (Sample.succeeded [py "A"; py "B"]) [[py "A"; py "B"]]);
    try reflexivity.
  - discriminate.
  - intros [|[|i]] Hi; [reflexivity|reflexivity|lia].
  - exists [(py "status", PStr (py "succeeded"));
            (py "analyzeResult", PDict [(py "readResults", PList [PDict [(py "lines", PList [PDict [(py "text", PStr (py "A"))]; PDict [(py "text", PStr (py "B"))]])]])])].
    do 2 eexists. repeat split; try reflexivity.
    repeat constructor.
    eexists. eexists. repeat split; try reflexivity.
    repeat constructor; eexists; split; reflexivity.
Defined.

(** C5, as stated, fails: a poll whose body is not JSON ends the loop
    after one request with the decoder's exception, which is none of the
    three exits. *)
Lemma poll_loop_other_exit :
  result (azure_read_image Sample.azure_only Sample.not_json Sample.sample_repr
            (py "a.jpg") 30)
  = inl Sample.json_error
  /\ polls (trace (azure_read_image Sample.azure_only Sample.not_json
                     Sample.sample_repr (py "a.jpg") 30)) = 1
  /\ (forall text, inl Sample.json_error <> @inr exn pystr text)
  /\ (forall rj, Sample.json_error <> read_failed Sample.sample_repr rj)
  /\ Sample.json_error <> timed_out
  /\ ~ three_exits Sample.not_json Sample.sample_repr (py "a.jpg")
         (clock Sample.not_json (py "a.jpg") + 30 * 1000) 0
         (result (azure_read_image Sample.azure_only Sample.not_json
                    Sample.sample_repr (py "a.jpg") 30)).
Proof.
  split; [reflexivity|]. split; [reflexivity|].
  split; [discriminate|]. split; [discriminate|]. split; [discriminate|].
  intros [(n & rj & pages & _ & _ & H)|[(n & rj & _ & _ & H)|(H & _)]];
    vm_compute in H; discriminate.
Qed.

(** C5, amended.  After an accepted submission, if every poll answers
    with a JSON object, in the documented shape when its status is
    "succeeded", the loop ends in one of three ways, which exclude one
    another: it returns the text of a succeeded payload, it raises the
    failure that prints a failed payload, or it raises the timeout at the
    first test that finds the deadline reached, every earlier poll having
    asked to poll again.  And when the remote attempt of a page times out
    with no local backend, the page's text is the error message that
    prints the timeout, written in the page's code block. *)
Theorem poll_loop_three_exits (cfg : config) (w : world)
    (repr : pyval -> pystr) (path : pystr) (timeout : Z)
    (resp : response) (url : pystr) :
  open_rb w path = inr tt ->
  post_reply w path = inr resp ->
  status_code resp = 202%N ->
  headers_get (headers resp) (py "Operation-Location") = Some url ->
  url <> [] ->
  (forall k, orderly (poll_reply w path k)) ->
  three_exits w repr path (clock w path + timeout * 1000) 0
    (result (azure_read_image cfg w repr path timeout))
  /\ (forall rj, read_failed repr rj <> timed_out)
  /\ (truthy (READ_API cfg) = true ->
      pytesseract cfg = false ->
      result (azure_read_image cfg w repr path 30) = inl timed_out ->
      result (ocr_text cfg w repr path)
      = inr (py "_Error during OCR: Azure error: Timed out waiting for Azure Read result_")
      /\ text_block (py "_Error during OCR: Azure error: Timed out waiting for Azure Read result_")
         = [fence_open;
            py "_Error during OCR: Azure error: Timed out waiting for Azure Read result_";
            fence_close]).
Proof.
  intros Hopen Hpost Hs Hh Hurl Hord.
  split; [|split].
  - rewrite (azure_read_image_accepted cfg w repr path timeout resp url)
      by assumption.
    unfold result at 1. cbn [fst].
    apply poll_loop_exits; [apply poll_budget_enough|exact Hord].
  - intros rj. discriminate.
  - intros Hapi Hpt Hr. split; [|reflexivity].
    unfold ocr_text, try_except, result in *. rewrite Hapi, Hpt.
    destruct (azure_read_image cfg w repr path 30) as [[e|t] tr];
      cbn in Hr; [injection Hr as ->|discriminate].
    reflexivity.
Qed.

Lemma poll_loop_three_exits_witness :
  result (ocr_text Sample.azure_only Sample.never_done Sample.sample_repr (py "a.jpg"))
  = inr (py "_Error during OCR: Azure error: Timed out waiting for Azure Read result_").
Proof.
  apply (poll_loop_three_exits Sample.azure_only Sample.never_done
           Sample.sample_repr (py "a.jpg") 30 Sample.accepted
           (py "https://azure.test/op/1"));
    try reflexivity.
  - discriminate.
  - intros k. exists [(py "status", PStr (py "running"))].
    split; [reflexivity|]. intros H. vm_compute in H. discriminate.
Defined.

(* ================================================================= *)
(** ** The filter of the enumeration (C10) *)

Section SuffixFacts.

Lemma chr_eqb_lower_dot (c : pychar) :
  chr_eqb (lower_chr c) 46%N = chr_eqb c 46%N.
Proof.
  unfold lower_chr, chr_eqb.
  destruct (N.leb_spec 65 c), (N.leb_spec c 90); cbn [andb]; try reflexivity.
  destruct (N.eqb_spec (c + 32) 46), (N.eqb_spec c 46); try reflexivity; lia.
Qed.

Lemma rfind_dot_lower (s : pystr) : rfind_dot (lower s) = rfind_dot s.
Proof.
  induction s as [|c s IH]; cbn [lower List.map rfind_dot]; [reflexivity|].
  fold (lower s). now rewrite IH, chr_eqb_lower_dot.
Qed.

Lemma lower_skipn (i : nat) (s : pystr) : lower (skipn i s) = skipn i (lower s).
Proof. unfold lower. now rewrite skipn_map. Qed.

Lemma lower_length (s : pystr) : List.length (lower s) = List.length s.
Proof. apply length_map. Qed.

Lemma suffix_lower (name : pystr) : lower (suffix name) = suffix (lower name).
Proof.
  unfold suffix. rewrite rfind_dot_lower, lower_length.
  destruct (rfind_dot name) as [i|]; [|reflexivity].
  destruct ((0 <? i) && (S i <? List.length name)); [apply lower_skipn|reflexivity].
Qed.

Lemma rfind_dot_app (stem rest : pystr) :
  rfind_dot rest = None ->
  rfind_dot (stem ++ 46%N :: rest) = Some (List.length stem).
Proof.
  intros Hr. induction stem as [|c stem IH]; cbn [app rfind_dot List.length].
  - now rewrite Hr.
  - now rewrite IH.
Qed.

Lemma skipn_length_app (stem rest : pystr) :
  skipn (List.length stem) (stem ++ rest) = rest.
Proof. induction stem as [|c stem IH]; [reflexivity|exact IH]. Qed.

Lemma suffix_app (stem rest : pystr) :
  stem <> [] -> rest <> [] -> rfind_dot rest = None ->
  suffix (stem ++ 46%N :: rest) = 46%N :: rest.
Proof.
  intros Hs Hr Hdot. unfold suffix. rewrite (rfind_dot_app stem rest Hdot).
  rewrite length_app. cbn [List.length].
  destruct stem as [|c stem]; [contradiction|].
  destruct rest as [|d rest]; [contradiction|].
  cbn [List.length].
  replace (0 <? S (List.length stem)) with true
    by (symmetry; apply Nat.ltb_lt; lia).
  replace (S (S (List.length stem))
           <? S (List.length stem) + S (S (List.length rest))) with true
    by (symmetry; apply Nat.ltb_lt; lia).
  exact (skipn_length_app (c :: stem) (46%N :: d :: rest)).
Qed.

(** A name made of a stem that is not empty and of an allowed extension,
    in any letter case, passes the filter. *)
Lemma is_image_extension (stem ext : pystr) :
  stem <> [] -> In (lower ext) IMAGE_EXTS -> is_image (stem ++ ext) = true.
Proof.
  intros Hs Hin. unfold is_image.
  apply existsb_exists. exists (lower ext). split; [exact Hin|].
  apply str_eqb_eq. rewrite suffix_lower.
  unfold lower at 1. rewrite map_app. fold (lower stem) (lower ext).
  assert (Hl : lower stem <> []) by (destruct stem; [contradiction|discriminate]).
  remember (lower stem) as s eqn:Es. remember (lower ext) as e eqn:Ee.
  clear Es Ee.
  unfold IMAGE_EXTS in Hin. cbn [In] in Hin.
  repeat match goal with
    | H : _ \/ _ |- _ => destruct H as [H|H]
    | H : False |- _ => contradiction
    end;
    subst e; apply suffix_app; try assumption; try discriminate; reflexivity.
Qed.

End SuffixFacts.

(** C10, as stated, fails twice.  The entry named [.png] ends in an
    allowed extension and is in the listing, yet it is not among the files
    that become pages, because a dot that starts the name starts no
    suffix.  And the entry [link.png], which is no regular file but a
    symbolic link to an image, is a page whose OCR attempt does not
    degrade: the link opens, the service reads the image, and the text of
    the section is the recognised text. *)
Lemma extension_only_name_skipped :
  ends_in_extension (py ".png")
  /\ iterdir MoreSamples.with_link = inr [py ".png"; py "link.png"]
  /\ result (list_files Sample.azure_only MoreSamples.with_link)
     = inr [py "link.png"]
  /\ ~ In (py ".png") [py "link.png"]
  /\ kind MoreSamples.with_link (py "link.png") = OtherEntry
  /\ result (ocr_text Sample.azure_only MoreSamples.with_link
               Sample.sample_repr (py "link.png"))
     = inr (py "A" ++ nl ++ py "B")
  /\ writes (trace (main Sample.azure_only MoreSamples.with_link
                      Sample.sample_repr))
     = [(py "/srv/docpoc/output.md",
         join nl [title;
                  py "## Page 1" ++ [32; 226; 8364; 8221; 32]%N
                    ++ py "link.png" ++ nl;
                  py "![link.png](../images/link.png)" ++ nl;
                  py "```text"; py "A" ++ nl ++ py "B"; py "```" ++ nl])].
Proof.
  split.
  { exists [], (py ".png"). split; [reflexivity|]. now left. }
  split; [reflexivity|]. split; [reflexivity|].
  split.
  { cbn [In]. intros [H|H]; [discriminate H|exact H]. }
  split; [reflexivity|]. split; vm_compute; reflexivity.
Qed.

(** C10, amended.  An entry of the listing whose name is a stem that is
    not empty followed by an allowed extension, in any letter case, is a
    page whatever kind of entry it is: the document the run builds holds
    its section, which opens with the heading [## Page], its place in the
    sorted list counted from 1, the dash of the source and its name, and
    this document is what the run writes, if UTF-8 can encode it.  When
    the entry cannot be opened as a file, and a directory cannot, the text
    of the section is the error message of the dispatch: what opening it
    raised, reported for each backend that was tried. *)
Theorem named_like_image_is_page (cfg : config) (w : world)
    (repr : pyval -> pystr) (entries : list pystr) (name stem ext : pystr) :
  iterdir w = inr entries ->
  In name entries ->
  name = stem ++ ext ->
  stem <> [] ->
  In (lower ext) IMAGE_EXTS ->
  (forall n, In n entries -> is_image n = true ->
     exists rel, relpath w n = inr rel) ->
  exists (secs : list (list pystr)) docs tr i rel text,
    pages_loop cfg w repr (sorted cfg (filter is_image entries)) 1 [] [title]
    = (inr (docs, title :: List.concat secs), tr)
    /\ nth_error (sorted cfg (filter is_image entries)) i = Some name
    /\ relpath w name = inr rel
    /\ result (ocr_text cfg w repr name) = inr text
    /\ nth_error secs i
       = Some ((py "## Page " ++ str_of_nat (S i)
                  ++ [32; 226; 8364; 8221; 32]%N ++ name ++ nl)
                 :: image_ref name (replace_backslash rel)
                 :: text_block text)
    /\ (forall e, open_rb w name = inl e ->
        text = match truthy (READ_API cfg), pytesseract cfg with
               | true, true => both_failed e e
               | true, false => azure_failed e
               | false, true => tesseract_failed e
               | false, false => no_backend
               end)
    /\ (kind w name = Directory -> open_rb w name = inl (dir_error w name))
    /\ (encodable (join nl (title :: List.concat secs)) = true ->
        result (main cfg w repr) = inr tt
        /\ writes (trace (main cfg w repr))
           = [(OUTPUT_MD cfg, join nl (title :: List.concat secs))])
    /\ (encodable (join nl (title :: List.concat secs)) = false ->
        result (main cfg w repr)
        = inl (write_error w (join nl (title :: List.concat secs)))
        /\ writes (trace (main cfg w repr)) = [(OUTPUT_MD cfg, [])]).
Proof.
  intros Hdir Hin Hname Hstem Hext Hrel.
  assert (Himg : is_image name = true)
    by (subst name; now apply is_image_extension).
  assert (Hfile : In name (sorted cfg (filter is_image entries))).
  { apply (Permutation_in _ (Permutation_sym (sorted_perm cfg _))).
    apply filter_In. now split. }
  destruct (In_nth_error _ _ Hfile) as (i & Hi).
  destruct (main_completes cfg w repr entries Hdir)
    as (secs & docs & tr & Hloop & Hm & Hq & Hnum & _).
  { intros n Hn.
    apply (Permutation_in _ (sorted_perm cfg _)) in Hn.
    apply filter_In in Hn. now apply Hrel. }
  destruct (numbered_nth _ _ _ _ _ _ _ _ Hnum Hi) as (rel & text & Hr & Ht & Hs).
  exists secs, docs, tr, i, rel, text.
  split; [exact Hloop|]. split; [exact Hi|]. split; [exact Hr|].
  split; [exact Ht|]. split; [exact Hs|].
  split.
  { intros e He. revert Ht.
    unfold ocr_text, azure_read_image, tesseract, Image_open,
      try_except, result, lift.
    rewrite He.
    destruct (truthy (READ_API cfg)), (pytesseract cfg); cbn; congruence. }
  split.
  { intros Hk. unfold open_rb, is_dir. now rewrite Hk. }
  rewrite Hm. split; intros ->; unfold result, trace; cbn [fst snd];
    rewrite writes_app, Hq; auto.
Qed.

Lemma named_like_image_is_page_witness :
  exists (secs : list (list pystr)) i,
    writes (trace (main Sample.local_only Sample.folder Sample.sample_repr))
    = [(py "/srv/docpoc/output.md", join nl (title :: List.concat secs))]
    /\ nth_error secs i
       = Some [py "## Page " ++ str_of_nat (S i)
                 ++ [32; 226; 8364; 8221; 32]%N ++ py "dir.gif" ++ nl;
               py "![dir.gif](../images/dir.gif)" ++ nl;
               py "```text";
               py "_Tesseract error: [Errno 21] Is a directory_";
               py "```" ++ nl].
Proof.
  destruct (named_like_image_is_page Sample.local_only Sample.folder
              Sample.sample_repr
              [py "b.PNG"; py "notes.txt"; py "a.jpg"; py ".png"; py "dir.gif"]
              (py "dir.gif") (py "dir") (py ".gif") eq_refl)
    as (secs & docs & tr & i & rel & text & Hloop & _ & Hr & _ & Hs
        & He & Hk & Hok & _).
  - cbn [In]. tauto.
  - reflexivity.
  - discriminate.
  - cbn [IMAGE_EXTS In]. tauto.
  - intros n _ _. eexists. reflexivity.
  - exists secs, i. split.
    + apply Hok.
      pose proof (f_equal (fun m => match fst m with
                                    | inr st => snd st
                                    | inl _ => []
                                    end) Hloop) as Hc.
      cbn [fst snd] in Hc. rewrite <- Hc. vm_compute. reflexivity.
    + rewrite Hs, (He _ (Hk eq_refl)).
      vm_compute in Hr. injection Hr as <-. reflexivity.
Defined.

(* ================================================================= *)
(** ** Two runs (C8) *)

Section TwoRuns.

Variable cfg : config.
Variable repr : pyval -> pystr.
Variable w1 w2 : world.

Lemma tell_bind {A} (ev : event) (m : M A) :
  (tell ev ;;; m) = (result m, ev :: trace m).
Proof. now destruct m. Qed.

Lemma poll_loop_S (w : world) (path url : pystr) (fuel : nat)
    (d now : Z) (k : nat) :
  poll_loop w repr (S fuel) path url d now k
  = if (now <? d)%Z then
      match poll_body repr (poll_reply w path k) with
      | Return text => (inr text, [EvGet url])
      | Raise e => (inl e, [EvGet url])
      | Continue =>
          (result (poll_loop w repr fuel path url d
                     (now + 500 + Z.of_N (lag w path k)) (S k)),
           EvGet url :: EvSleep
             :: trace (poll_loop w repr fuel path url d
                         (now + 500 + Z.of_N (lag w path k)) (S k)))
      end
    else (inl timed_out, []).
Proof.
  cbn [poll_loop]. destruct (now <? d)%Z; [|reflexivity].
  destruct (poll_body repr (poll_reply w path k)); try reflexivity.
  rewrite !tell_bind. reflexivity.
Qed.

(** Two loops that make as many polls and get the same answers to them
    end alike, whatever their clocks show. *)
Lemma poll_loop_same (path url : pystr) (fuel : nat) :
  forall d1 d2 now1 now2 k,
    polls (trace (poll_loop w1 repr fuel path url d1 now1 k))
    = polls (trace (poll_loop w2 repr fuel path url d2 now2 k)) ->
    (forall j, j < polls (trace (poll_loop w1 repr fuel path url d1 now1 k)) ->
               poll_reply w1 path (k + j) = poll_reply w2 path (k + j)) ->
    poll_loop w1 repr fuel path url d1 now1 k
    = poll_loop w2 repr fuel path url d2 now2 k.
Proof.
  induction fuel as [|fuel IH]; intros d1 d2 now1 now2 k; [reflexivity|].
  rewrite !poll_loop_S.
  destruct (now1 <? d1)%Z, (now2 <? d2)%Z.
  - intros Hn Hr.
    assert (H0 : poll_reply w1 path k = poll_reply w2 path k).
    { rewrite <- (Nat.add_0_r k) at 1 2. apply Hr.
      destruct (poll_body repr (poll_reply w1 path k)); cbn; lia. }
    rewrite <- H0 in *.
    destruct (poll_body repr (poll_reply w1 path k)); try reflexivity.
    cbn [trace snd polls] in Hn, Hr. injection Hn as Hn.
    rewrite (IH d1 d2 _ (now2 + 500 + Z.of_N (lag w2 path k))%Z (S k) Hn);
      [reflexivity|].
    intros j Hj. replace (S k + j) with (k + S j) by lia. apply Hr. lia.
  - intros Hn _. exfalso.
    destruct (poll_body repr (poll_reply w1 path k)); cbn in Hn; discriminate.
  - intros Hn _. exfalso.
    destruct (poll_body repr (poll_reply w2 path k)); cbn in Hn; discriminate.
  - reflexivity.
Qed.

Lemma observed_replies_same (path : pystr) :
  observed_replies cfg w1 repr path = observed_replies cfg w2 repr path ->
  polls (trace (azure_read_image cfg w1 repr path 30))
  = polls (trace (azure_read_image cfg w2 repr path 30))
  /\ forall k, k < polls (trace (azure_read_image cfg w1 repr path 30)) ->
               poll_reply w1 path k = poll_reply w2 path k.
Proof.
  unfold observed_replies. intros H.
  assert (Hn : polls (trace (azure_read_image cfg w1 repr path 30))
               = polls (trace (azure_read_image cfg w2 repr path 30))).
  { apply (f_equal (@List.length get_reply)) in H.
    now rewrite !length_map, !length_seq in H. }
  split; [exact Hn|]. intros k Hk. rewrite <- Hn in H.
  apply (f_equal (fun l => nth_error l k)) in H.
  rewrite !nth_error_map, nth_error_seq in H.
  apply Nat.ltb_lt in Hk. rewrite Hk in H. cbn in H. congruence.
Qed.

Lemma azure_read_image_same (path : pystr) :
  same_file_answers w1 w2 path ->
  observed_replies cfg w1 repr path = observed_replies cfg w2 repr path ->
  azure_read_image cfg w1 repr path 30 = azure_read_image cfg w2 repr path 30.
Proof.
  intros (Hd & He & Ho & _ & Hp & _) Hobs.
  destruct (observed_replies_same path Hobs) as (Hn & Hr).
  destruct (open_rb w2 path) as [e|[]] eqn:Hopen.
  { unfold azure_read_image, open_rb in *. rewrite Hd, He, Ho, Hopen.
    reflexivity. }
  assert (Hopen1 : open_rb w1 path = inr tt)
    by (unfold open_rb in *; now rewrite Hd, He, Ho).
  destruct (post_reply w2 path) as [e|resp] eqn:Hpost.
  { unfold azure_read_image. rewrite Hopen, Hopen1, Hp, Hpost. reflexivity. }
  assert (Hpost1 : post_reply w1 path = inr resp) by congruence.
  destruct (N.eqb_spec (status_code resp) 202) as [Hs|Hs].
  2:{ rewrite (proj1 (submission_rejected_pair cfg w1 repr path 30 resp Hopen1 Hpost1) Hs).
      now rewrite (proj1 (submission_rejected_pair cfg w2 repr path 30 resp Hopen Hpost) Hs). }
  destruct (headers_get (headers resp) (py "Operation-Location"))
    as [[|c url]|] eqn:Hh.
  1, 3: unfold azure_read_image; rewrite Hopen, Hopen1, Hp, Hpost;
    cbn [lift bind tell fst snd app];
    apply N.eqb_eq in Hs; rewrite Hs, Hh; reflexivity.
  assert (Hurl : c :: url <> []) by discriminate.
  rewrite (azure_read_image_accepted cfg w1 repr path 30 resp (c :: url)
             Hopen1 Hpost1 Hs Hh Hurl) in *.
  rewrite (azure_read_image_accepted cfg w2 repr path 30 resp (c :: url)
             Hopen Hpost Hs Hh Hurl) in *.
  cbn [trace snd polls] in Hn, Hr. fold (@trace pystr) in Hn, Hr.
  rewrite (poll_loop_same path (c :: url) (poll_budget 30) _
             (clock w2 path + 30 * 1000)%Z _ (clock w2 path) 0 Hn Hr).
  reflexivity.
Qed.

Lemma ocr_text_same (path : pystr) :
  same_file_answers w1 w2 path ->
  observed_replies cfg w1 repr path = observed_replies cfg w2 repr path ->
  ocr_text cfg w1 repr path = ocr_text cfg w2 repr path.
Proof.
  intros Hsame Hobs. pose proof (azure_read_image_same path Hsame Hobs) as Ha.
  destruct Hsame as (Hd & He & Ho & _ & _ & Hpil & Hts).
  unfold ocr_text, tesseract, Image_open, open_rb.
  now rewrite Ha, Hd, He, Ho, Hpil, Hts.
Qed.

Lemma pages_loop_same (files : list pystr) :
  (forall p, In p files -> same_file_answers w1 w2 p) ->
  (forall p, In p files ->
     observed_replies cfg w1 repr p = observed_replies cfg w2 repr p) ->
  forall idx docs md,
    pages_loop cfg w1 repr files idx docs md
    = pages_loop cfg w2 repr files idx docs md.
Proof.
  induction files as [|path rest IH]; intros Hsame Hobs idx docs md;
    cbn [pages_loop]; [reflexivity|].
  rewrite (ocr_text_same path (Hsame path (or_introl eq_refl))
             (Hobs path (or_introl eq_refl))).
  destruct (Hsame path (or_introl eq_refl)) as (_ & _ & _ & -> & _).
  assert (Hrest : forall i d m,
             pages_loop cfg w1 repr rest i d m = pages_loop cfg w2 repr rest i d m).
  { apply IH; intros p Hp; [apply Hsame|apply Hobs]; now right. }
  destruct (relpath w2 path) as [e|rel]; [reflexivity|].
  unfold lift, bind.
  destruct (ocr_text cfg w2 repr path) as [[e|text] t]; [reflexivity|].
  now rewrite Hrest.
Qed.

End TwoRuns.

(** C8, the two runs that refute the claim as it was written.  The folder
    and the configuration are the same and the service is down in both
    runs, so that no response comes at all; the exception of the refused
    connection prints the address of a connection object, which differs
    from one process to the next.  Line 109 writes that text into each
    page, and the two output files differ. *)
Lemma refused_connection_differs :
  iterdir (MoreSamples.refused (py "7f3a5c0d2e10"))
  = iterdir (MoreSamples.refused (py "7f91b4a03d50"))
  /\ exn_class (match post_reply (MoreSamples.refused (py "7f3a5c0d2e10"))
                        (py "a.jpg") with
                | inl e => e
                | inr _ => Sample.os_error
                end)
     = Raised (py "ConnectionError")
  /\ exn_class (match post_reply (MoreSamples.refused (py "7f91b4a03d50"))
                        (py "a.jpg") with
                | inl e => e
                | inr _ => Sample.os_error
                end)
     = Raised (py "ConnectionError")
  /\ result (main Sample.azure_only (MoreSamples.refused (py "7f3a5c0d2e10"))
               Sample.sample_repr) = inr tt
  /\ result (main Sample.azure_only (MoreSamples.refused (py "7f91b4a03d50"))
               Sample.sample_repr) = inr tt
  /\ result (ocr_text Sample.azure_only (MoreSamples.refused (py "7f3a5c0d2e10"))
               Sample.sample_repr (py "a.jpg"))
     = inr (py "_Error during OCR: Azure error: HTTPSConnectionPool(host='vision.test', port=443): Max retries exceeded with url: /vision/v3.2/read/analyze (Caused by NewConnectionError('<urllib3.connection.HTTPSConnection object at 0x7f3a5c0d2e10>: Failed to establish a new connection: [Errno 111] Connection refused'))_")
  /\ result (ocr_text Sample.azure_only (MoreSamples.refused (py "7f91b4a03d50"))
               Sample.sample_repr (py "a.jpg"))
     = inr (py "_Error during OCR: Azure error: HTTPSConnectionPool(host='vision.test', port=443): Max retries exceeded with url: /vision/v3.2/read/analyze (Caused by NewConnectionError('<urllib3.connection.HTTPSConnection object at 0x7f91b4a03d50>: Failed to establish a new connection: [Errno 111] Connection refused'))_")
  /\ writes (trace (main Sample.azure_only
                      (MoreSamples.refused (py "7f3a5c0d2e10"))
                      Sample.sample_repr))
     <> writes (trace (main Sample.azure_only
                         (MoreSamples.refused (py "7f91b4a03d50"))
                         Sample.sample_repr)).
Proof.
  repeat (split; [vm_compute; reflexivity|]).
  vm_compute. intros H. discriminate H.
Qed.

(** C8, amended.  Two runs with the same configuration, over the same
    listing, or over listings that hold the same entries in two orders
    when no two entries compare equal as paths, in surroundings that
    answer alike about each entry, every call that fails raising an
    exception that prints the same text in both, and whose poll endpoint
    gave the same replies to the polls made, end the same way with the
    same trace, whatever their clocks show: they write the same text to
    the same file. *)
Theorem run_deterministic (cfg : config) (repr : pyval -> pystr)
    (w1 w2 : world) (listing1 listing2 : list pystr) :
  iterdir w1 = inr listing1 ->
  iterdir w2 = inr listing2 ->
  listing1 = listing2
  \/ (Permutation listing1 listing2
      /\ NoDup (List.map (path_key cfg) listing1)) ->
  (forall p, In p listing1 -> same_file_answers w1 w2 p) ->
  (forall p, In p listing1 ->
     observed_replies cfg w1 repr p = observed_replies cfg w2 repr p) ->
  (forall text, write_error w1 text = write_error w2 text) ->
  main cfg w1 repr = main cfg w2 repr.
Proof.
  intros H1 H2 Hlist Hsame Hobs Hwe.
  rewrite (main_unfold cfg w1 repr listing1 H1).
  rewrite (main_unfold cfg w2 repr listing2 H2).
  assert (Hfiles : sorted cfg (filter is_image listing2)
                   = sorted cfg (filter is_image listing1)).
  { destruct Hlist as [->|[P Hnd]]; [reflexivity|].
    symmetry. exact (sorted_listing_order cfg is_image _ _ P Hnd). }
  rewrite Hfiles.
  rewrite (pages_loop_same cfg repr w1 w2 (sorted cfg (filter is_image listing1))).
  - destruct (pages_loop cfg w2 repr (sorted cfg (filter is_image listing1))
                1 [] [title]) as [[e|st] tr]; cbn [bind]; [reflexivity|].
    unfold write_text. now rewrite Hwe.
  - intros p Hp. apply Hsame.
    apply (Permutation_in _ (sorted_perm cfg _)) in Hp.
    now apply filter_In in Hp.
  - intros p Hp. apply Hobs.
    apply (Permutation_in _ (sorted_perm cfg _)) in Hp.
    now apply filter_In in Hp.
Qed.

Lemma run_deterministic_witness :
  main Sample.azure_only Sample.folder Sample.sample_repr
  = main Sample.azure_only Sample.slower Sample.sample_repr.
Proof.
  apply (run_deterministic Sample.azure_only Sample.sample_repr
           Sample.folder Sample.slower
           [py "b.PNG"; py "notes.txt"; py "a.jpg"; py ".png"; py "dir.gif"]
           [py "a.jpg"; py "dir.gif"; py ".png"; py "b.PNG"; py "notes.txt"]
           eq_refl eq_refl).
  - right. split.
    + apply (Permutation_cons_app [py "a.jpg"; py "dir.gif"; py ".png"] [py "notes.txt"]).
      apply (Permutation_cons_app [py "a.jpg"; py "dir.gif"; py ".png"] []).
      apply perm_skip. apply perm_swap.
    + vm_compute. repeat constructor; cbn [In]; intuition discriminate.
  - intros p _. repeat split.
  - intros p Hp. cbn [In] in Hp.
    repeat match goal with
      | H : _ \/ _ |- _ => destruct H as [<-|H]
      | H : False |- _ => contradiction
      end; vm_compute; reflexivity.
  - reflexivity.
Defined.

(* ================================================================= *)
(** ** The endpoint of the service *)

Lemma forallb_slashes (s : pystr) :
  forallb (chr_eqb 47%N) s = true -> Forall (fun c => c = 47%N) s.
Proof.
  rewrite forallb_forall, Forall_forall. intros H c Hc.
  specialize (H c Hc). unfold chr_eqb in H. apply N.eqb_eq in H. now symmetry.
Qed.

(** X1. The remote backend is configured exactly when the endpoint and the
    key are both set and not empty.  Its address is then the endpoint
    without the slashes that end it, followed by the path of the analyze
    operation: the part taken from the endpoint never ends with a slash,
    whatever number of slashes the endpoint was given with. *)
Theorem read_api_address (cfg : config) :
  (truthy (READ_API cfg) = true
   <-> truthy (AZURE_OCR_ENDPOINT cfg) = true /\ truthy (AZURE_OCR_KEY cfg) = true)
  /\ (forall url,
        READ_API cfg = Some url ->
        exists endpoint base slashes,
          AZURE_OCR_ENDPOINT cfg = Some endpoint
          /\ endpoint = base ++ slashes
          /\ Forall (fun c => c = 47%N) slashes
          /\ (forall b, base <> b ++ [47%N])
          /\ url = base ++ py "/vision/v3.2/read/analyze").
Proof.
  unfold READ_API, AZURE_ENDPOINT, AZURE_KEY.
  destruct (AZURE_OCR_ENDPOINT cfg) as [endpoint|].
  2:{ cbn. split; [split; [intros H|intros [H _]]; discriminate H
             |intros url H; discriminate H]. }
  destruct (truthy (Some endpoint)) eqn:He, (truthy (AZURE_OCR_KEY cfg)) eqn:Hk;
    cbn [andb].
  2-4: split; [split; [intros H; discriminate H|intros [H1 H2]; discriminate]
              |intros url H; discriminate H].
  split.
  - split; [auto|intros _].
    unfold truthy. destruct (rstrip_slash endpoint); reflexivity.
  - intros url [= <-].
    destruct (rstrip_by_split (chr_eqb 47%N) endpoint) as (slashes & Hs & Hall).
    exists endpoint, (rstrip_slash endpoint), slashes.
    repeat split; auto using forallb_slashes.
    intros b Hb. apply rstrip_by_last in Hb. discriminate.
Qed.

(* ================================================================= *)
(** ** Error texts in the document *)

Lemma rstrip_ends_nonspace (s : pystr) (c : pychar) :
  isspace c = false -> rstrip (s ++ [c]) = s ++ [c].
Proof.
  intros Hc. unfold rstrip, rstrip_by. rewrite rev_app_distr. cbn [rev app lstrip_by].
  rewrite Hc. rewrite <- (rev_involutive s) at 2. reflexivity.
Qed.

Lemma text_block_ends_nonspace (s : pystr) (c : pychar) :
  isspace c = false ->
  text_block (s ++ [c]) = [fence_open; s ++ [c]; fence_close].
Proof.
  intros Hc. unfold text_block.
  destruct (strip (s ++ [c])) eqn:E.
  - apply strip_nil in E. unfold blank in E. rewrite Forall_app in E.
    destruct E as [_ E]. inversion E; subst. congruence.
  - now rewrite rstrip_ends_nonspace.
Qed.

(** X2. The four texts the dispatch builds when no backend gives a text
    are never taken for an empty recognition and never cut: whatever the
    exceptions print, each is written whole between the fences of a code
    block. *)
Theorem error_texts_rendered (ea et : exn) :
  text_block (both_failed ea et) = [fence_open; both_failed ea et; fence_close]
  /\ text_block (azure_failed ea) = [fence_open; azure_failed ea; fence_close]
  /\ text_block (tesseract_failed et)
     = [fence_open; tesseract_failed et; fence_close]
  /\ text_block no_backend = [fence_open; no_backend; fence_close].
Proof.
  unfold both_failed, azure_failed, tesseract_failed.
  change (py "_") with [95%N].
  split; [|split; [|split]];
    try (rewrite !app_assoc; now apply text_block_ends_nonspace).
  vm_compute. reflexivity.
Qed.

(* ================================================================= *)
(** ** Which names the enumeration keeps *)

Lemma rfind_dot_bound (s : pystr) (i : nat) :
  rfind_dot s = Some i -> i < List.length s.
Proof.
  revert i. induction s as [|c s IH]; intros i; cbn [rfind_dot List.length];
    [discriminate|].
  destruct (rfind_dot s) as [j|].
  - intros [= <-]. specialize (IH j eq_refl). lia.
  - destruct (chr_eqb c 46%N); [intros [= <-]; lia|discriminate].
Qed.

Lemma existsb_image_ext (s : pystr) :
  existsb (str_eqb s) IMAGE_EXTS = true -> In s IMAGE_EXTS.
Proof.
  intros H. apply existsb_exists in H. destruct H as (e & He & Heq).
  apply str_eqb_eq in Heq. now subst.
Qed.

(** X3. The enumeration keeps a name exactly when it is a stem that is
    not empty followed by one of the six extensions, in any letter case. *)
Theorem is_image_iff (name : pystr) :
  is_image name = true
  <-> exists stem ext,
        name = stem ++ ext /\ stem <> [] /\ In (lower ext) IMAGE_EXTS.
Proof.
  split.
  - unfold is_image. intros H. apply existsb_image_ext in H.
    unfold suffix in H.
    destruct (rfind_dot name) as [i|] eqn:Hi;
      [|cbn in H; intuition discriminate].
    destruct (0 <? i) eqn:Hpos; cbn [andb] in H;
      [|cbn in H; intuition discriminate].
    destruct (S i <? List.length name) eqn:Hlen;
      [|cbn in H; intuition discriminate].
    exists (firstn i name), (skipn i name).
    split; [now rewrite firstn_skipn|]. split; [|exact H].
    apply Nat.ltb_lt in Hpos, Hlen. intros Hnil.
    apply (f_equal (@List.length pychar)) in Hnil.
    rewrite length_firstn in Hnil. cbn in Hnil. lia.
  - intros (stem & ext & -> & Hs & He). now apply is_image_extension.
Qed.

(* ================================================================= *)
(** ** Payloads with keys left out or texts of another type *)

Section LoosePayloads.

Lemma page_lines_with (items : list pyval) (ls : list (option pystr)) :
  Forall2 line_with items ls ->
  forall acc,
    page_lines items acc = inr (acc ++ List.map PStr (List.map text_of_line ls)).
Proof.
  induction 1 as [|line o items ls (kvs & -> & Hs) _ IH]; intros acc;
    cbn [page_lines List.map].
  - now rewrite app_nil_r.
  - cbn [dict_get]. rewrite Hs, IH, <- app_assoc. now destruct o.
Qed.

Lemma all_lines_with (items : list pyval)
    (pages : list (option (list (option pystr)))) :
  Forall2 page_with items pages ->
  forall acc,
    all_lines items acc
    = inr (acc ++ List.map PStr (List.concat (List.map lines_of_page pages))).
Proof.
  induction 1 as [|page o items pages (kvs & -> & Ho) _ IH]; intros acc;
    cbn [all_lines List.map List.concat].
  - now rewrite app_nil_r.
  - cbn [dict_get]. destruct o as [ls|].
    + destruct Ho as (lines & -> & Hls). cbn [py_iter].
      rewrite (page_lines_with _ _ Hls), IH.
      cbn [lines_of_page]. now rewrite map_app, app_assoc.
    + rewrite Ho. cbn [py_iter page_lines lines_of_page app]. apply IH.
Qed.

Lemma page_lines_values (items vs : list pyval) :
  Forall2 line_value items vs ->
  forall acc, page_lines items acc = inr (acc ++ vs).
Proof.
  induction 1 as [|line v items vs (kvs & -> & Hs) _ IH]; intros acc;
    cbn [page_lines].
  - now rewrite app_nil_r.
  - cbn [dict_get]. now rewrite Hs, IH, <- app_assoc.
Qed.

Lemma all_lines_values (items : list pyval) (vals : list (list pyval)) :
  Forall2 page_values items vals ->
  forall acc, all_lines items acc = inr (acc ++ List.concat vals).
Proof.
  induction 1 as [|page vs items vals (kvs & lines & -> & Hl & Hvs) _ IH];
    intros acc; cbn [all_lines List.concat].
  - now rewrite app_nil_r.
  - cbn [dict_get]. rewrite Hl. cbn [py_iter].
    now rewrite (page_lines_values _ _ Hvs), IH, app_assoc.
Qed.

Lemma join_from_first_bad (pre : list pystr) (v : pyval) (rest : list pyval) :
  (forall s, v <> PStr s) ->
  forall i,
    join_from i (List.map PStr pre ++ v :: rest)
    = inl (Exn TypeError
             (py "sequence item " ++ str_of_nat (i + List.length pre)
                ++ py ": expected str instance, " ++ type_name v
                ++ py " found")).
Proof.
  intros Hv. induction pre as [|p pre IH]; intros i; cbn [List.map app join_from].
  - rewrite Nat.add_0_r. destruct v; try reflexivity. now destruct (Hv s).
  - rewrite IH. cbn [List.length]. now rewrite Nat.add_succ_r.
Qed.

End LoosePayloads.

(** X4. The text of a succeeded payload tolerates every key it reads
    being left out: with no "analyzeResult", or with one that has no
    "readResults", the text is empty; a page with no "lines" gives no
    line; a line with no "text" gives an empty line.  The lines that are
    there come out in order, joined by newlines. *)
Theorem succeeded_text_missing_keys (kvs : list (pystr * pyval)) :
  (lookup (py "analyzeResult") kvs = None ->
     succeeded_text (PDict kvs) = inr [])
  /\ (forall ar,
        lookup (py "analyzeResult") kvs = Some (PDict ar) ->
        (lookup (py "readResults") ar = None ->
           succeeded_text (PDict kvs) = inr [])
        /\ (forall items pages,
              lookup (py "readResults") ar = Some (PList items) ->
              Forall2 page_with items pages ->
              succeeded_text (PDict kvs)
              = inr (join nl (List.concat (List.map lines_of_page pages))))).
Proof.
  unfold succeeded_text. cbn [dict_get]. split.
  - intros ->. reflexivity.
  - intros ar ->. cbn [dict_get]. split.
    + intros ->. reflexivity.
    + intros items pages -> Hp. cbn [py_iter].
      rewrite (all_lines_with _ _ Hp). cbn [app].
      unfold join_values. now rewrite join_from_strs.
Qed.

(** A payload with a page that has no lines and a line that has no text:
    the lines are A, the empty line and B. *)
Example sample_missing_keys :
  succeeded_text
    (PDict
       [(py "analyzeResult",
         PDict
           [(py "readResults",
             PList
               [PDict [(py "angle", PInt 0)];
                PDict
                  [(py "lines",
                    PList [PDict [(py "text", PStr (py "A"))];
                           PDict [(py "boundingBox", PList [])];
                           PDict [(py "text", PStr (py "B"))]])]])])])
  = inr (py "A" ++ nl ++ nl ++ py "B").
Proof. reflexivity. Qed.

(** X5. When the lines of a succeeded payload carry, for their texts,
    values of which one is not a string, no text is returned: the backend
    raises the TypeError of the join, which names the place of the first
    such value among all the lines and its type. *)
Theorem succeeded_text_not_string (kvs ar : list (pystr * pyval))
    (items : list pyval) (vals : list (list pyval))
    (pre : list pystr) (v : pyval) (rest : list pyval) :
  lookup (py "analyzeResult") kvs = Some (PDict ar) ->
  lookup (py "readResults") ar = Some (PList items) ->
  Forall2 page_values items vals ->
  List.concat vals = List.map PStr pre ++ v :: rest ->
  (forall s, v <> PStr s) ->
  succeeded_text (PDict kvs)
  = inl (Exn TypeError
           (py "sequence item " ++ str_of_nat (List.length pre)
              ++ py ": expected str instance, " ++ type_name v ++ py " found")).
Proof.
  intros Har Hrr Hvals Hc Hv. unfold succeeded_text. cbn [dict_get].
  rewrite Har. cbn [dict_get]. rewrite Hrr. cbn [py_iter].
  rewrite (all_lines_values _ _ Hvals). cbn [app]. rewrite Hc.
  unfold join_values. now rewrite (join_from_first_bad pre v rest Hv 0).
Qed.

Lemma succeeded_text_not_string_witness :
  succeeded_text MoreSamples.number_for_text
  = inl (Exn TypeError
           (py "sequence item " ++ str_of_nat 1
              ++ py ": expected str instance, " ++ py "int" ++ py " found")).
Proof.
  apply (succeeded_text_not_string
           [(py "status", PStr (py "succeeded"));
            (py "analyzeResult",
             PDict
               [(py "readResults",
                 PList
                   [PDict
                      [(py "lines",
                        PList [PDict [(py "text", PStr (py "A"))];
                               PDict [(py "text", PInt 7)]])]])])]
           [(py "readResults",
             PList
               [PDict
                  [(py "lines",
                    PList [PDict [(py "text", PStr (py "A"))];
                           PDict [(py "text", PInt 7)]])]])]
           [PDict
              [(py "lines",
                PList [PDict [(py "text", PStr (py "A"))];
                       PDict [(py "text", PInt 7)]])]]
           [[PStr (py "A"); PInt 7]] [py "A"] (PInt 7) []);
    try reflexivity.
  - repeat constructor. eexists. eexists. repeat split; try reflexivity.
    repeat constructor; eexists; split; reflexivity.
  - discriminate.
Defined.

(* ================================================================= *)
(** ** How much the remote backend polls, and where *)

Section PollCounts.

Variable cfg : config.
Variable w : world.
Variable repr : pyval -> pystr.
Variable path : pystr.

(** Either the backend stopped before the loop, having sent the POST at
    most, or the submission was accepted and the loop ran. *)
Lemma azure_read_image_cases (timeout : Z) :
  (exists e,
      azure_read_image cfg w repr path timeout = (inl e, [])
      \/ azure_read_image cfg w repr path timeout
         = (inl e, [EvPost (READ_API cfg) path]))
  \/ (exists resp url,
         open_rb w path = inr tt
         /\ post_reply w path = inr resp
         /\ status_code resp = 202%N
         /\ headers_get (headers resp) (py "Operation-Location") = Some url
         /\ url <> []
         /\ azure_read_image cfg w repr path timeout
            = (result (poll_loop w repr (poll_budget timeout) path url
                         (clock w path + timeout * 1000) (clock w path) 0),
               EvPost (READ_API cfg) path
                 :: trace (poll_loop w repr (poll_budget timeout) path url
                             (clock w path + timeout * 1000) (clock w path) 0))).
Proof.
  destruct (open_rb w path) as [e|[]] eqn:Hopen.
  { left. exists e. left. unfold azure_read_image. now rewrite Hopen. }
  destruct (post_reply w path) as [e|resp] eqn:Hpost.
  { left. exists e. right. unfold azure_read_image. now rewrite Hopen, Hpost. }
  destruct (N.eq_dec (status_code resp) 202) as [Hs|Hs].
  2:{ left. exists (api_error resp). right.
      exact (proj1 (submission_rejected_pair cfg w repr path timeout resp
                      Hopen Hpost) Hs). }
  destruct (headers_get (headers resp) (py "Operation-Location"))
    as [[|c url]|] eqn:Hh.
  - left. exists missing_location. right.
    unfold azure_read_image. rewrite Hopen, Hpost.
    cbn [lift bind tell fst snd app].
    apply N.eqb_eq in Hs. now rewrite Hs, Hh.
  - right. exists resp, (c :: url).
    repeat split; try assumption; try discriminate.
    apply (azure_read_image_accepted cfg w repr path timeout resp (c :: url));
      try assumption. discriminate.
  - left. exists missing_location. right.
    exact (proj2 (submission_rejected_pair cfg w repr path timeout resp
                    Hopen Hpost) Hs Hh).
Qed.

(** Every pass takes half a second at least: the polls left fit in the
    time left. *)
Lemma poll_loop_polls_bound (url : pystr) (d : Z) (fuel : nat) :
  forall now k,
    (500 * Z.of_nat (polls (trace (poll_loop w repr fuel path url d now k)))
     <= Z.max 0 (d - now + 499))%Z.
Proof.
  induction fuel as [|fuel IH]; intros now k; [cbn; lia|].
  rewrite poll_loop_S.
  destruct (Z.ltb_spec now d) as [Hlt|Hge]; [|cbn; lia].
  destruct (poll_body repr (poll_reply w path k)); try (cbn; lia).
  cbn [trace snd polls].
  specialize (IH (now + 500 + Z.of_N (lag w path k))%Z (S k)).
  unfold trace in *. lia.
Qed.

Lemma poll_loop_sleeps (url : pystr) (d : Z) (fuel : nat) :
  forall now k,
    sleeps (trace (poll_loop w repr fuel path url d now k))
    <= polls (trace (poll_loop w repr fuel path url d now k))
    /\ posts (trace (poll_loop w repr fuel path url d now k)) = 0
    /\ locals (trace (poll_loop w repr fuel path url d now k)) = 0.
Proof.
  induction fuel as [|fuel IH]; intros now k; [cbn; lia|].
  rewrite poll_loop_S.
  destruct (now <? d)%Z; [|cbn; lia].
  destruct (poll_body repr (poll_reply w path k)); try (cbn; lia).
  cbn [trace snd polls sleeps posts locals].
  specialize (IH (now + 500 + Z.of_N (lag w path k))%Z (S k)).
  unfold trace in *. lia.
Qed.

Lemma poll_loop_urls (url : pystr) (d : Z) (fuel : nat) :
  forall now k u,
    In (EvGet u) (trace (poll_loop w repr fuel path url d now k)) -> u = url.
Proof.
  induction fuel as [|fuel IH]; intros now k u; [cbn; tauto|].
  rewrite poll_loop_S.
  destruct (now <? d)%Z; [|cbn; tauto].
  destruct (poll_body repr (poll_reply w path k)); cbn [trace snd In].
  - intros [[= ->]|[]]. reflexivity.
  - intros [[= ->]|[]]. reflexivity.
  - intros [[= ->]|[H|H]]; [reflexivity|discriminate H|].
    exact (IH _ _ _ H).
Qed.

(** The counts of a whole remote attempt. *)
Lemma azure_read_image_counts (timeout : Z) :
  posts (trace (azure_read_image cfg w repr path timeout)) <= 1
  /\ locals (trace (azure_read_image cfg w repr path timeout)) = 0
  /\ sleeps (trace (azure_read_image cfg w repr path timeout))
     <= polls (trace (azure_read_image cfg w repr path timeout))
  /\ (500 * Z.of_nat (polls (trace (azure_read_image cfg w repr path timeout)))
      <= Z.max 0 (timeout * 1000 + 499))%Z.
Proof.
  destruct (azure_read_image_cases timeout)
    as [(e & [-> | ->])|(resp & url & _ & _ & _ & _ & _ & ->)];
    try (cbn; lia).
  pose proof (poll_loop_sleeps url (clock w path + timeout * 1000)
                (poll_budget timeout) (clock w path) 0) as (Hs & Hp & Hl).
  pose proof (poll_loop_polls_bound url (clock w path + timeout * 1000)
                (poll_budget timeout) (clock w path) 0) as Hb.
  cbn [trace snd posts locals sleeps polls]. unfold trace in *.
  replace (clock w path + timeout * 1000 - clock w path + 499)%Z
    with (timeout * 1000 + 499)%Z in Hb by lia.
  lia.
Qed.

End PollCounts.

(** X6. A remote attempt sends at most one POST, sleeps at most once per
    poll, and makes at most two polls for each second of its timeout,
    none when the timeout is zero or less: at most sixty for the thirty
    seconds that main allows. *)
Theorem polls_bounded (cfg : config) (w : world) (repr : pyval -> pystr)
    (path : pystr) (timeout : Z) :
  posts (trace (azure_read_image cfg w repr path timeout)) <= 1
  /\ sleeps (trace (azure_read_image cfg w repr path timeout))
     <= polls (trace (azure_read_image cfg w repr path timeout))
  /\ polls (trace (azure_read_image cfg w repr path timeout))
     <= Z.to_nat (2 * timeout)
  /\ polls (trace (azure_read_image cfg w repr path 30)) <= 60.
Proof.
  pose proof (azure_read_image_counts cfg w repr path timeout) as (Hp & _ & Hs & Hb).
  pose proof (azure_read_image_counts cfg w repr path 30) as (_ & _ & _ & Hb30).
  repeat split; try assumption; lia.
Qed.

(** The sample service that never finishes is polled 58 times in the 30
    seconds, each pass taking 520 milliseconds. *)
Example sample_poll_count :
  polls (trace (azure_read_image Sample.azure_only Sample.never_done
                  Sample.sample_repr (py "a.jpg") 30)) = 58.
Proof. vm_compute. reflexivity. Qed.

(** X7. The backend polls only after a submission that was accepted: if
    a remote attempt made a poll, the file opened, the POST was answered
    202 with an operation location that is not empty, the POST is the
    first event of the attempt, and every poll went to that location. *)
Theorem polls_follow_accepted_post (cfg : config) (w : world)
    (repr : pyval -> pystr) (path : pystr) (timeout : Z) :
  0 < polls (trace (azure_read_image cfg w repr path timeout)) ->
  open_rb w path = inr tt
  /\ exists resp url,
       post_reply w path = inr resp
       /\ status_code resp = 202%N
       /\ headers_get (headers resp) (py "Operation-Location") = Some url
       /\ url <> []
       /\ hd_error (trace (azure_read_image cfg w repr path timeout))
          = Some (EvPost (READ_API cfg) path)
       /\ forall u,
            In (EvGet u) (trace (azure_read_image cfg w repr path timeout)) ->
            u = url.
Proof.
  destruct (azure_read_image_cases cfg w repr path timeout)
    as [(e & [-> | ->])|(resp & url & Hopen & Hpost & Hs & Hh & Hurl & ->)];
    try (cbn; lia).
  intros _. split; [exact Hopen|]. exists resp, url.
  repeat split; try assumption.
  cbn [trace snd In]. intros u [H|H]; [discriminate H|].
  exact (poll_loop_urls w repr path url _ _ _ _ _ H).
Qed.

Lemma polls_follow_accepted_post_witness :
  open_rb Sample.folder (py "a.jpg") = inr tt
  /\ hd_error (trace (azure_read_image Sample.azure_only Sample.folder
                        Sample.sample_repr (py "a.jpg") 30))
     = Some (EvPost (READ_API Sample.azure_only) (py "a.jpg")).
Proof.
  destruct (polls_follow_accepted_post Sample.azure_only Sample.folder
              Sample.sample_repr (py "a.jpg") 30)
    as (Hopen & resp & url & _ & _ & _ & _ & Hhd & _).
  - vm_compute. lia.
  - split; [exact Hopen|exact Hhd].
Defined.

(** X8. After an accepted submission, if every poll answers with a JSON
    object whose status is neither the string "succeeded" nor the string
    "failed" (a status left out, of another type or in another letter
    case included), the attempt ends with the timeout error. *)
Theorem pending_until_timeout (cfg : config) (w : world)
    (repr : pyval -> pystr) (path : pystr) (timeout : Z)
    (resp : response) (url : pystr) :
  open_rb w path = inr tt ->
  post_reply w path = inr resp ->
  status_code resp = 202%N ->
  headers_get (headers resp) (py "Operation-Location") = Some url ->
  url <> [] ->
  (forall k, pending (poll_reply w path k)) ->
  result (azure_read_image cfg w repr path timeout) = inl timed_out.
Proof.
  intros Hopen Hpost Hs Hh Hurl Hpend.
  rewrite (azure_read_image_accepted cfg w repr path timeout resp url)
    by assumption.
  unfold result at 1. cbn [fst].
  assert (Hord : forall k, orderly (poll_reply w path k)).
  { intros k. destruct (Hpend k) as (kvs & Hr & Hns & _).
    exists kvs. split; [exact Hr|]. intros H. contradiction. }
  destruct (poll_loop_exits w repr path url _ _ 0
              (poll_budget_enough w path timeout) Hord)
    as [(n & rj & pages & Hr & Hp & _)|[(n & rj & Hr & Hf & _)|(H & _)]].
  - exfalso. destruct (Hpend n) as (kvs & Hr' & Hns & _).
    destruct Hp as (kvs' & _ & _ & -> & Hst & _).
    rewrite Hr in Hr'. injection Hr' as <-. contradiction.
  - exfalso. destruct (Hpend n) as (kvs & Hr' & _ & Hnf).
    destruct Hf as (kvs' & -> & Hst).
    rewrite Hr in Hr'. injection Hr' as <-. contradiction.
  - exact H.
Qed.

Lemma pending_until_timeout_witness :
  result (azure_read_image Sample.azure_only
            (Sample.with_service (inr Sample.accepted)
               (fun _ => GetBody (inr (PDict [(py "status", PStr (py "Succeeded"))]))))
            Sample.sample_repr (py "a.jpg") 30)
  = inl timed_out.
Proof.
  apply (pending_until_timeout Sample.azure_only
           (Sample.with_service (inr Sample.accepted)
              (fun _ => GetBody (inr (PDict [(py "status", PStr (py "Succeeded"))]))))
           Sample.sample_repr (py "a.jpg") 30 Sample.accepted
           (py "https://azure.test/op/1"));
    try reflexivity.
  - discriminate.
  - intros k. exists [(py "status", PStr (py "Succeeded"))].
    split; [reflexivity|]. split; vm_compute; discriminate.
Defined.

(* ================================================================= *)
(** ** What the loop over the files builds, and in which order *)

Section WholeRun.

Variable cfg : config.
Variable w : world.
Variable repr : pyval -> pystr.

Lemma pages_loop_full (files : list pystr) :
  (forall name, In name files -> exists rel, relpath w name = inr rel) ->
  exists rels texts,
    Forall2 (fun name rel => relpath w name = inr rel) files rels
    /\ Forall2 (fun name text => result (ocr_text cfg w repr name) = inr text)
         files texts
    /\ forall idx docs md,
         pages_loop cfg w repr files idx docs md
         = (inr (docs ++ docs_from cfg idx files texts,
                 md ++ List.concat (sections_from idx files rels texts)),
            List.concat
              (List.map (fun name => trace (ocr_text cfg w repr name)) files)).
Proof.
  induction files as [|path rest IH]; intros Hrel.
  - exists [], []. repeat split; try constructor.
    intros idx docs md. cbn. now rewrite !app_nil_r.
  - destruct IH as (rels & texts & Hrels & Htexts & Hloop).
    { intros name Hin. apply Hrel. now right. }
    destruct (Hrel path (or_introl eq_refl)) as (rel & Hp).
    destruct (ocr_text_returns cfg w repr path) as (text & Htext).
    exists (rel :: rels), (text :: texts).
    split; [now constructor|]. split; [now constructor|].
    intros idx docs md. cbn [pages_loop]. unfold lift. rewrite Hp.
    destruct (ocr_text cfg w repr path) as [r t] eqn:Hocr.
    unfold result in Htext. cbn [fst] in Htext. subst r.
    cbn [bind]. rewrite Hloop.
    cbn [docs_from sections_from List.concat List.map].
    rewrite Hocr. unfold page_section, trace. cbn [snd].
    now rewrite <- !app_assoc.
Qed.

Lemma main_full (entries : list pystr) :
  iterdir w = inr entries ->
  (forall name, In name entries -> is_image name = true ->
     exists rel, relpath w name = inr rel) ->
  exists rels texts,
    Forall2 (fun name rel => relpath w name = inr rel)
      (sorted cfg (filter is_image entries)) rels
    /\ Forall2 (fun name text => result (ocr_text cfg w repr name) = inr text)
         (sorted cfg (filter is_image entries)) texts
    /\ pages_loop cfg w repr (sorted cfg (filter is_image entries)) 1 [] [title]
       = (inr (docs_from cfg 1 (sorted cfg (filter is_image entries)) texts,
               title
                 :: List.concat
                      (sections_from 1 (sorted cfg (filter is_image entries))
                         rels texts)),
          List.concat
            (List.map (fun name => trace (ocr_text cfg w repr name))
               (sorted cfg (filter is_image entries))))
    /\ main cfg w repr
       = (if encodable
               (join nl
                  (title
                     :: List.concat
                          (sections_from 1 (sorted cfg (filter is_image entries))
                             rels texts)))
          then
            (inr tt,
             List.concat
               (List.map (fun name => trace (ocr_text cfg w repr name))
                  (sorted cfg (filter is_image entries)))
             ++ [EvWrite (OUTPUT_MD cfg)
                   (join nl
                      (title
                         :: List.concat
                              (sections_from 1 (sorted cfg (filter is_image entries))
                                 rels texts)));
                 EvPrint (summary cfg
                            (List.length (sorted cfg (filter is_image entries))))])
          else
            (inl (write_error w
                    (join nl
                       (title
                          :: List.concat
                               (sections_from 1
                                  (sorted cfg (filter is_image entries))
                                  rels texts)))),
             List.concat
               (List.map (fun name => trace (ocr_text cfg w repr name))
                  (sorted cfg (filter is_image entries)))
             ++ [EvTruncate (OUTPUT_MD cfg)])).
Proof.
  intros Hdir Hrel.
  destruct (pages_loop_full (sorted cfg (filter is_image entries)))
    as (rels & texts & Hrels & Htexts & Hloop).
  { intros name Hin.
    apply (Permutation_in _ (sorted_perm cfg _)) in Hin.
    apply filter_In in Hin. now apply Hrel. }
  exists rels, texts. split; [exact Hrels|]. split; [exact Htexts|].
  split; [exact (Hloop 1 [] [title])|].
  exact (main_after_loop cfg w repr entries _ _ Hdir (Hloop 1 [] [title])).
Qed.

Lemma docs_from_nth (files texts : list pystr) :
  forall idx i name text,
    nth_error files i = Some name ->
    nth_error texts i = Some text ->
    nth_error (docs_from cfg idx files texts) i
    = Some (Doc text (idx + i) (path_str cfg name)).
Proof.
  revert texts. induction files as [|f files IH]; intros [|t texts] idx [|i] name text;
    cbn [nth_error docs_from]; try discriminate.
  - intros [= ->] [= ->]. now rewrite Nat.add_0_r.
  - intros Hf Ht. rewrite (IH texts (S idx) i name text Hf Ht).
    now rewrite Nat.add_succ_r.
Qed.

Lemma sections_from_nth (files rels texts : list pystr) :
  forall idx i name rel text,
    nth_error files i = Some name ->
    nth_error rels i = Some rel ->
    nth_error texts i = Some text ->
    nth_error (sections_from idx files rels texts) i
    = Some (page_section (idx + i) name (replace_backslash rel) text).
Proof.
  revert rels texts.
  induction files as [|f files IH]; intros [|r rels] [|t texts] idx [|i] name rel text;
    cbn [nth_error sections_from]; try discriminate.
  - intros [= ->] [= ->] [= ->]. now rewrite Nat.add_0_r.
  - intros Hf Hr Ht. rewrite (IH rels texts (S idx) i name rel text Hf Hr Ht).
    now rewrite Nat.add_succ_r.
Qed.

Lemma docs_from_length (fs : list pystr) :
  forall idx ts,
    List.length fs = List.length ts ->
    List.length (docs_from cfg idx fs ts) = List.length fs.
Proof.
  induction fs as [|f fs IH]; intros idx [|t ts]; cbn; try discriminate; auto.
Qed.

Lemma sections_from_length (fs : list pystr) :
  forall idx rs ts,
    List.length fs = List.length rs -> List.length fs = List.length ts ->
    List.length (sections_from idx fs rs ts) = List.length fs.
Proof.
  induction fs as [|f fs IH]; intros idx [|r rs] [|t ts]; cbn;
    try discriminate; auto.
Qed.

Lemma Forall2_nth {A B} (R : A -> B -> Prop) (l : list A) (l' : list B) :
  Forall2 R l l' ->
  forall i a, nth_error l i = Some a -> exists b, nth_error l' i = Some b /\ R a b.
Proof.
  induction 1 as [|x y l l' Hxy _ IH]; intros [|i] a; cbn [nth_error];
    try discriminate.
  - intros [= ->]. eauto.
  - apply IH.
Qed.

Lemma ocr_text_no_backend (path : pystr) :
  truthy (READ_API cfg) = false -> pytesseract cfg = false ->
  ocr_text cfg w repr path = (inr no_backend, []).
Proof. intros H1 H2. unfold ocr_text. now rewrite H1, H2. Qed.

Lemma azure_read_image_posts_first (path : pystr) (timeout : Z) :
  open_rb w path = inr tt ->
  hd_error (trace (azure_read_image cfg w repr path timeout))
  = Some (EvPost (READ_API cfg) path).
Proof.
  intros Hopen. unfold azure_read_image, lift. rewrite Hopen. cbn [bind].
  rewrite tell_bind.
  destruct (result _); reflexivity.
Qed.

Lemma tesseract_counts (path : pystr) :
  posts (trace (tesseract w path)) = 0
  /\ polls (trace (tesseract w path)) = 0
  /\ locals (trace (tesseract w path)) = 1.
Proof.
  unfold tesseract. rewrite tell_bind. unfold lift, bind.
  destruct (Image_open w path) as [e|[]]; cbn; auto.
Qed.

End WholeRun.

Lemma counts_app (t u : list event) :
  posts (t ++ u) = posts t + posts u
  /\ polls (t ++ u) = polls t + polls u
  /\ locals (t ++ u) = locals t + locals u.
Proof.
  induction t as [|ev t (IH1 & IH2 & IH3)]; [cbn; auto|].
  destruct ev; cbn; rewrite ?IH1, ?IH2, ?IH3; auto.
Qed.

(** X9. The loop builds its two lists from the same texts: for files
    whose relative paths are found, the i-th document (from 0) holds the
    text of the i-th file, the page number i+1 and the path of the file,
    and the i-th section holds the same number, the same text and the
    file's relative path with its backslashes replaced. *)
Theorem documents_match_sections (cfg : config) (w : world)
    (repr : pyval -> pystr) (files : list pystr) :
  (forall name, In name files -> exists rel, relpath w name = inr rel) ->
  exists docs secs,
    result (pages_loop cfg w repr files 1 [] [title])
    = inr (docs, title :: List.concat secs)
    /\ List.length docs = List.length files
    /\ List.length secs = List.length files
    /\ forall i name,
         nth_error files i = Some name ->
         exists rel text,
           relpath w name = inr rel
           /\ result (ocr_text cfg w repr name) = inr text
           /\ nth_error docs i = Some (Doc text (S i) (path_str cfg name))
           /\ nth_error secs i
              = Some (page_section (S i) name (replace_backslash rel) text).
Proof.
  intros Hrel.
  destruct (pages_loop_full cfg w repr files Hrel)
    as (rels & texts & Hrels & Htexts & Hloop).
  exists (docs_from cfg 1 files texts), (sections_from 1 files rels texts).
  rewrite Hloop. split; [reflexivity|].
  pose proof (Forall2_length Hrels) as Lr.
  pose proof (Forall2_length Htexts) as Lt.
  split; [now apply docs_from_length|].
  split; [now apply sections_from_length|].
  intros i name Hi.
  destruct (Forall2_nth _ _ _ Hrels i name Hi) as (rel & Hr & Hrp).
  destruct (Forall2_nth _ _ _ Htexts i name Hi) as (text & Ht & Hres).
  exists rel, text. split; [exact Hrp|]. split; [exact Hres|]. split.
  - exact (docs_from_nth cfg files texts 1 i name text Hi Ht).
  - exact (sections_from_nth files rels texts 1 i name rel text Hi Hr Ht).
Qed.

Lemma documents_match_sections_witness :
  exists docs secs,
    result (pages_loop Sample.azure_only Sample.folder Sample.sample_repr
              [py "a.jpg"; py "b.PNG"] 1 [] [title])
    = inr (docs, title :: List.concat secs)
    /\ List.length docs = 2.
Proof.
  destruct (documents_match_sections Sample.azure_only Sample.folder
              Sample.sample_repr [py "a.jpg"; py "b.PNG"])
    as (docs & secs & Hres & Hd & _).
  - intros name _. eexists. reflexivity.
  - exists docs, secs. split; [exact Hres|exact Hd].
Defined.

(** X10. When the folder lists and no entry is an image, the run calls
    no backend, writes the title line alone and reports zero pages. *)
Theorem empty_folder_run (cfg : config) (w : world) (repr : pyval -> pystr)
    (entries : list pystr) :
  iterdir w = inr entries ->
  (forall name, In name entries -> is_image name = false) ->
  main cfg w repr
  = (inr tt,
     [EvWrite (OUTPUT_MD cfg) title;
      EvPrint (py "Wrote 0 pages to " ++ OUTPUT_MD cfg)]).
Proof.
  intros Hdir Hnone. rewrite (main_unfold cfg w repr entries Hdir).
  assert (Hf : filter is_image entries = []).
  { clear Hdir. induction entries as [|n entries IH]; [reflexivity|].
    cbn [filter]. rewrite (Hnone n (or_introl eq_refl)).
    apply IH. intros m Hm. apply Hnone. now right. }
  rewrite Hf. reflexivity.
Qed.

Lemma empty_folder_run_witness :
  main Sample.local_only MoreSamples.no_images Sample.sample_repr
  = (inr tt,
     [EvWrite (OUTPUT_MD Sample.local_only) title;
      EvPrint (py "Wrote 0 pages to " ++ OUTPUT_MD Sample.local_only)]).
Proof.
  apply (empty_folder_run Sample.local_only MoreSamples.no_images
           Sample.sample_repr
           [py "notes.txt"; py ".png"; py "png"; py "scan.pdf"; py "x."]
           eq_refl).
  intros name Hin. cbn [In] in Hin.
  repeat match goal with
    | H : _ \/ _ |- _ => destruct H as [<-|H]
    | H : False |- _ => contradiction
    end; reflexivity.
Defined.

(** X11. With the remote backend not configured and no local engine, a
    run that lists the folder and finds the relative paths calls no
    backend at all, and every page's section holds the fixed notice in its
    code block.  When UTF-8 can encode the document, the trace of the run
    is the write and the summary alone; when it cannot, a file name
    holding a lone surrogate, the run raises the encoder's exception and
    its trace is the opening of the output file alone. *)
Theorem no_backend_run (cfg : config) (w : world) (repr : pyval -> pystr)
    (entries : list pystr) :
  truthy (READ_API cfg) = false ->
  pytesseract cfg = false ->
  iterdir w = inr entries ->
  (forall name, In name entries -> is_image name = true ->
     exists rel, relpath w name = inr rel) ->
  exists secs : list (list pystr),
    main cfg w repr
    = (if encodable (join nl (title :: List.concat secs))
       then
         (inr tt,
          [EvWrite (OUTPUT_MD cfg) (join nl (title :: List.concat secs));
           EvPrint (summary cfg (List.length (filter is_image entries)))])
       else
         (inl (write_error w (join nl (title :: List.concat secs))),
          [EvTruncate (OUTPUT_MD cfg)]))
    /\ List.length secs = List.length (filter is_image entries)
    /\ forall i name,
         nth_error (sorted cfg (filter is_image entries)) i = Some name ->
         exists rel,
           relpath w name = inr rel
           /\ nth_error secs i
              = Some [heading (S i) name;
                      image_ref name (replace_backslash rel);
                      fence_open; no_backend; fence_close].
Proof.
  intros Hapi Hpt Hdir Hrel.
  destruct (main_full cfg w repr entries Hdir Hrel)
    as (rels & texts & Hrels & Htexts & _ & Hm).
  pose proof (Permutation_length (sorted_perm cfg (filter is_image entries))) as HN.
  exists (sections_from 1 (sorted cfg (filter is_image entries)) rels texts).
  split; [|split].
  - rewrite Hm, HN.
    assert (Hnil : forall fs,
               List.concat (List.map (fun name => trace (ocr_text cfg w repr name)) fs)
               = []).
    { induction fs as [|f fs IH]; [reflexivity|].
      cbn [List.map List.concat]. rewrite IH.
      now rewrite (ocr_text_no_backend cfg w repr f Hapi Hpt). }
    now rewrite Hnil.
  - rewrite <- HN.
    apply sections_from_length;
      [exact (Forall2_length Hrels)|exact (Forall2_length Htexts)].
  - intros i name Hi.
    destruct (Forall2_nth _ _ _ Hrels i name Hi) as (rel & Hr & Hrp).
    destruct (Forall2_nth _ _ _ Htexts i name Hi) as (text & Ht & Hres).
    exists rel. split; [exact Hrp|].
    rewrite (sections_from_nth _ _ _ 1 i name rel text Hi Hr Ht).
    rewrite (ocr_text_no_backend cfg w repr name Hapi Hpt) in Hres.
    injection Hres as <-. reflexivity.
Qed.

Lemma no_backend_run_witness :
  exists secs : list (list pystr),
    main Sample.nothing Sample.folder Sample.sample_repr
    = (inr tt,
       [EvWrite (OUTPUT_MD Sample.nothing) (join nl (title :: List.concat secs));
        EvPrint (py "Wrote 3 pages to C:\docpoc\output.md")]).
Proof.
  destruct (no_backend_run Sample.nothing Sample.folder Sample.sample_repr
              [py "b.PNG"; py "notes.txt"; py "a.jpg"; py ".png"; py "dir.gif"]
              eq_refl eq_refl eq_refl)
    as (secs & Hm & Hlen & Hsec).
  - intros name _ _. eexists. reflexivity.
  - exists secs. rewrite Hm.
    destruct secs as [|s1 [|s2 [|s3 [|s4 secs]]]]; try discriminate Hlen.
    destruct (Hsec 0 (py "a.jpg") eq_refl) as (r1 & R1 & E1).
    destruct (Hsec 1 (py "b.PNG") eq_refl) as (r2 & R2 & E2).
    destruct (Hsec 2 (py "dir.gif") eq_refl) as (r3 & R3 & E3).
    cbn in E1, E2, E3. injection E1 as ->. injection E2 as ->. injection E3 as ->.
    vm_compute in R1, R2, R3.
    injection R1 as <-. injection R2 as <-. injection R3 as <-.
    reflexivity.
Defined.

(* ================================================================= *)
(** ** Which backend is called, and when *)

Lemma in_hd_error {A} (l : list A) (a : A) : hd_error l = Some a -> In a l.
Proof. destruct l; cbn; [discriminate|intros [= ->]; now left]. Qed.

(** X12. For one file the dispatch sends at most one POST and calls the
    local engine at most once.  It makes no request when the remote
    backend is not configured, and never calls the local engine when it
    is not there or when the remote backend returned a text; when the
    remote backend raised and the local engine is there, the events are
    those of the remote attempt followed by those of the local one. *)
Theorem backends_called_in_turn (cfg : config) (w : world)
    (repr : pyval -> pystr) (path : pystr) :
  posts (trace (ocr_text cfg w repr path)) <= 1
  /\ locals (trace (ocr_text cfg w repr path)) <= 1
  /\ (truthy (READ_API cfg) = false ->
      posts (trace (ocr_text cfg w repr path)) = 0
      /\ polls (trace (ocr_text cfg w repr path)) = 0)
  /\ (pytesseract cfg = false -> locals (trace (ocr_text cfg w repr path)) = 0)
  /\ (forall text,
        truthy (READ_API cfg) = true ->
        result (azure_read_image cfg w repr path 30) = inr text ->
        ocr_text cfg w repr path = azure_read_image cfg w repr path 30
        /\ locals (trace (ocr_text cfg w repr path)) = 0)
  /\ (forall e,
        truthy (READ_API cfg) = true ->
        pytesseract cfg = true ->
        result (azure_read_image cfg w repr path 30) = inl e ->
        trace (ocr_text cfg w repr path)
        = trace (azure_read_image cfg w repr path 30) ++ trace (tesseract w path)).
Proof.
  pose proof (azure_read_image_counts cfg w repr path 30) as (Hp & Hl & _ & _).
  pose proof (tesseract_counts w path) as (Tp & Tg & Tl).
  unfold ocr_text, try_except, result, trace, ret in *.
  destruct (azure_read_image cfg w repr path 30) as [[ea|ta] tra];
    destruct (tesseract w path) as [[et|tt] trt];
    destruct (truthy (READ_API cfg)), (pytesseract cfg);
    cbn [fst snd] in *;
    repeat match goal with
      | |- _ /\ _ => split
      | |- forall _, _ => intro
      | H : inl _ = inr _ |- _ => discriminate H
      | H : inr _ = inl _ |- _ => discriminate H
      | H : true = false |- _ => discriminate H
      | H : false = true |- _ => discriminate H
      end;
    rewrite ?app_nil_r;
    repeat match goal with
      | |- context [posts (?a ++ ?b)] =>
          rewrite (proj1 (counts_app a b))
      | |- context [polls (?a ++ ?b)] =>
          rewrite (proj1 (proj2 (counts_app a b)))
      | |- context [locals (?a ++ ?b)] =>
          rewrite (proj2 (proj2 (counts_app a b)))
      end;
    try lia; try reflexivity; try congruence; cbn; lia.
Qed.

(* ================================================================= *)
(** ** The order of a run *)

(** X13. A run that lists the folder and finds the relative paths handles
    the files one after the other in the order of the sorted list: the
    events of the loop are those of the dispatch of each file, file after
    file, and nothing is written meanwhile.  Then comes the one write of
    the accumulated lines joined by newlines and the summary line with the
    number of files, when UTF-8 can encode the text; when it cannot, the
    output file is opened, the run raises the encoder's exception, and no
    summary line is printed. *)
Theorem files_handled_in_order (cfg : config) (w : world)
    (repr : pyval -> pystr) (entries : list pystr) :
  iterdir w = inr entries ->
  (forall name, In name entries -> is_image name = true ->
     exists rel, relpath w name = inr rel) ->
  exists docs md,
    pages_loop cfg w repr (sorted cfg (filter is_image entries)) 1 [] [title]
    = (inr (docs, md),
       List.concat
         (List.map (fun name => trace (ocr_text cfg w repr name))
            (sorted cfg (filter is_image entries))))
    /\ main cfg w repr
       = (if encodable (join nl md)
          then
            (inr tt,
             List.concat
               (List.map (fun name => trace (ocr_text cfg w repr name))
                  (sorted cfg (filter is_image entries)))
             ++ [EvWrite (OUTPUT_MD cfg) (join nl md);
                 EvPrint (py "Wrote "
                            ++ str_of_nat (List.length (filter is_image entries))
                            ++ py " pages to " ++ OUTPUT_MD cfg)])
          else
            (inl (write_error w (join nl md)),
             List.concat
               (List.map (fun name => trace (ocr_text cfg w repr name))
                  (sorted cfg (filter is_image entries)))
             ++ [EvTruncate (OUTPUT_MD cfg)])).
Proof.
  intros Hdir Hrel.
  destruct (main_full cfg w repr entries Hdir Hrel)
    as (rels & texts & _ & _ & Hloop & Hm).
  eexists. eexists. split; [exact Hloop|].
  rewrite Hm. unfold summary.
  now rewrite (Permutation_length (sorted_perm cfg (filter is_image entries))).
Qed.

Lemma files_handled_in_order_witness :
  exists text,
    main Sample.local_only Sample.folder Sample.sample_repr
    = (inr tt,
       [EvLocal (py "a.jpg"); EvLocal (py "b.PNG"); EvLocal (py "dir.gif");
        EvWrite (py "/srv/docpoc/output.md") text;
        EvPrint (py "Wrote 3 pages to /srv/docpoc/output.md")]).
Proof.
  destruct (files_handled_in_order Sample.local_only Sample.folder
              Sample.sample_repr
              [py "b.PNG"; py "notes.txt"; py "a.jpg"; py ".png"; py "dir.gif"]
              eq_refl)
    as (docs & md & Hloop & Hm).
  - intros name _ _. eexists. reflexivity.
  - exists (join nl md). rewrite Hm.
    pose proof (f_equal (fun m => match fst m with
                                  | inr st => snd st
                                  | inl _ => []
                                  end) Hloop) as Hc.
    cbn [fst snd] in Hc. rewrite <- Hc. vm_compute. reflexivity.
Defined.

(** X14. A remote failure on one file does not keep the remote backend
    from the others: with the remote backend configured, in a run that
    lists the folder and finds the relative paths, the image of every
    matching entry that opens is posted to the service. *)
Theorem remote_tried_for_every_file (cfg : config) (w : world)
    (repr : pyval -> pystr) (entries : list pystr) (name : pystr) :
  truthy (READ_API cfg) = true ->
  iterdir w = inr entries ->
  (forall n, In n entries -> is_image n = true ->
     exists rel, relpath w n = inr rel) ->
  In name entries ->
  is_image name = true ->
  open_rb w name = inr tt ->
  In (EvPost (READ_API cfg) name) (trace (main cfg w repr)).
Proof.
  intros Hapi Hdir Hrel Hin Himg Hopen.
  destruct (main_full cfg w repr entries Hdir Hrel)
    as (rels & texts & _ & _ & _ & Hm).
  rewrite Hm.
  assert (Hposted :
            In (EvPost (READ_API cfg) name)
              (List.concat
                 (List.map (fun n => trace (ocr_text cfg w repr n))
                    (sorted cfg (filter is_image entries)))));
    [|destruct (encodable _); unfold trace at 1; cbn [snd];
      apply in_or_app; now left].
  apply in_concat.
  exists (trace (ocr_text cfg w repr name)). split.
  - apply in_map_iff. exists name. split; [reflexivity|].
    apply (Permutation_in _ (Permutation_sym (sorted_perm cfg _))).
    apply filter_In. now split.
  - pose proof (in_hd_error _ _
                  (azure_read_image_posts_first cfg w repr name 30 Hopen)) as Hp.
    unfold ocr_text, try_except. rewrite Hapi.
    unfold trace in *.
    destruct (azure_read_image cfg w repr name 30) as [[e|t] tr]; cbn [snd] in *;
      [|exact Hp].
    destruct (pytesseract cfg).
    + destruct (tesseract w name) as [[et|tt] trt]; cbn [snd ret];
        apply in_or_app; now left.
    + cbn [snd ret]. apply in_or_app. now left.
Qed.

Lemma remote_tried_for_every_file_witness :
  In (EvPost (READ_API Sample.azure_and_local) (py "b.PNG"))
    (trace (main Sample.azure_and_local (Sample.fails_after 1)
              Sample.sample_repr)).
Proof.
  apply (remote_tried_for_every_file Sample.azure_and_local
           (Sample.fails_after 1) Sample.sample_repr
           [py "b.PNG"; py "notes.txt"; py "a.jpg"; py ".png"; py "dir.gif"]
           (py "b.PNG") eq_refl eq_refl).
  - intros n _ _. eexists. reflexivity.
  - now left.
  - reflexivity.
  - reflexivity.
Defined.

(* ================================================================= *)
(** ** The image references *)

Lemma replace_backslash_facts (s : pystr) :
  ~ In 92%N (replace_backslash s)
  /\ List.length (replace_backslash s) = List.length s
  /\ (~ In 92%N s -> replace_backslash s = s).
Proof.
  unfold replace_backslash, chr_eqb.
  induction s as [|c s (IH1 & IH2 & IH3)]; cbn [List.map In List.length].
  - auto.
  - destruct (N.eqb_spec c 92) as [->|Hc].
    + repeat split.
      * intros [H|H]; [discriminate H|contradiction].
      * now rewrite IH2.
      * intros H. exfalso. apply H. now left.
    + repeat split.
      * intros [H|H]; [congruence|contradiction].
      * now rewrite IH2.
      * intros H. f_equal. apply IH3. intros Hin. apply H. now right.
Qed.

(** X15. In the document of a run the second line of every page's
    section is the image reference: it names the file and gives the
    relative path of os.path.relpath with every backslash turned into a
    forward slash and every other character kept.  So the link holds no
    backslash, has the length of the relative path, and is the relative
    path itself when that held no backslash.  The document is what the
    run writes when UTF-8 can encode it. *)
Theorem image_links_use_slashes (cfg : config) (w : world)
    (repr : pyval -> pystr) (entries : list pystr) :
  iterdir w = inr entries ->
  (forall name, In name entries -> is_image name = true ->
     exists rel, relpath w name = inr rel) ->
  exists (secs : list (list pystr)) docs tr,
    pages_loop cfg w repr (sorted cfg (filter is_image entries)) 1 [] [title]
    = (inr (docs, title :: List.concat secs), tr)
    /\ (encodable (join nl (title :: List.concat secs)) = true ->
        writes (trace (main cfg w repr))
        = [(OUTPUT_MD cfg, join nl (title :: List.concat secs))])
    /\ forall i name,
         nth_error (sorted cfg (filter is_image entries)) i = Some name ->
         exists rel sec,
           relpath w name = inr rel
           /\ nth_error secs i = Some sec
           /\ nth_error sec 1
              = Some (py "![" ++ name ++ py "]("
                        ++ List.map (fun c => if (c =? 92)%N then 47%N else c) rel
                        ++ py ")" ++ nl)
           /\ ~ In 92%N (List.map (fun c => if (c =? 92)%N then 47%N else c) rel)
           /\ List.length
                (List.map (fun c => if (c =? 92)%N then 47%N else c) rel)
              = List.length rel
           /\ (~ In 92%N rel ->
               List.map (fun c => if (c =? 92)%N then 47%N else c) rel = rel).
Proof.
  intros Hdir Hrel.
  destruct (main_completes cfg w repr entries Hdir)
    as (secs & docs & tr & Hloop & Hm & Hq & Hnum & _).
  { intros name Hin.
    apply (Permutation_in _ (sorted_perm cfg _)) in Hin.
    apply filter_In in Hin. now apply Hrel. }
  exists secs, docs, tr. split; [exact Hloop|]. split.
  - intros Henc. rewrite Hm, Henc. unfold trace. cbn [snd].
    now rewrite writes_app, Hq.
  - intros i name Hi.
    destruct (numbered_nth _ _ _ _ _ _ _ _ Hnum Hi) as (rel & text & Hr & _ & Hs).
    destruct (replace_backslash_facts rel) as (F1 & F2 & F3).
    exists rel, (page_section (1 + i) name (replace_backslash rel) text).
    repeat split; auto.
Qed.

Lemma image_links_use_slashes_witness :
  exists secs : list (list pystr),
    writes (trace (main Sample.azure_only Sample.folder
                     Sample.sample_repr))
    = [(py "/srv/docpoc/output.md", join nl (title :: List.concat secs))]
    /\ exists sec,
         nth_error secs 0 = Some sec
         /\ nth_error sec 1 = Some (py "![a.jpg](../images/a.jpg)" ++ nl).
Proof.
  destruct (image_links_use_slashes Sample.azure_only Sample.folder
              Sample.sample_repr
              [py "b.PNG"; py "notes.txt"; py "a.jpg"; py ".png"; py "dir.gif"]
              eq_refl)
    as (secs & docs & tr & Hloop & Hw & Hsec).
  - intros name _ _. eexists. reflexivity.
  - exists secs. split.
    + apply Hw.
      pose proof (f_equal (fun m => match fst m with
                                    | inr st => snd st
                                    | inl _ => []
                                    end) Hloop) as Hc.
      cbn [fst snd] in Hc. rewrite <- Hc. vm_compute. reflexivity.
    + destruct (Hsec 0 (py "a.jpg") eq_refl)
        as (rel & sec & Hr & Hs & Hl & _).
      exists sec. split; [exact Hs|].
      vm_compute in Hr. injection Hr as <-. exact Hl.
Defined.

(* ================================================================= *)
(** ** The poll that ends an attempt *)

Section LastPoll.

Variable w : world.
Variable repr : pyval -> pystr.
Variable path url : pystr.
Variable deadline : Z.

Lemma poll_loop_steps_trace (j : nat) :
  forall fuel,
    (forall i, i < j -> (clock_at w path i < deadline)%Z) ->
    (forall i, i < j -> poll_body repr (poll_reply w path i) = Continue) ->
    forall k, k <= j ->
      polls (trace (poll_loop w repr (j - k + fuel) path url deadline
                      (clock_at w path k) k))
      = j - k + polls (trace (poll_loop w repr fuel path url deadline
                                (clock_at w path j) j))
      /\ sleeps (trace (poll_loop w repr (j - k + fuel) path url deadline
                          (clock_at w path k) k))
         = j - k + sleeps (trace (poll_loop w repr fuel path url deadline
                                    (clock_at w path j) j)).
Proof.
  intros fuel Hclock Hcont k Hk.
  remember (j - k) as d eqn:Hd. revert k Hk Hd.
  induction d as [|d IH]; intros k Hk Hd.
  - assert (k = j) by lia. subst k. auto.
  - cbn [Nat.add].
    rewrite poll_loop_step by (try apply Hclock; try apply Hcont; lia).
    cbn [trace snd polls sleeps].
    destruct (IH (S k)) as (H1 & H2); [lia|lia|].
    unfold trace in *. lia.
Qed.

Lemma poll_loop_last (fuel k : nat) :
  (clock_at w path k < deadline)%Z ->
  poll_body repr (poll_reply w path k) <> Continue ->
  poll_loop w repr (S fuel) path url deadline (clock_at w path k) k
  = (match poll_body repr (poll_reply w path k) with
     | Return text => inr text
     | Raise e => inl e
     | Continue => inl timed_out
     end,
     [EvGet url]).
Proof.
  intros Hlt Hne. rewrite poll_loop_S. apply Z.ltb_lt in Hlt. rewrite Hlt.
  destruct (poll_body repr (poll_reply w path k)); try reflexivity.
  contradiction.
Qed.

End LastPoll.

(** X16. Once a poll gives a verdict the attempt stops: when the
    submission was accepted, the polls before the k-th asked to poll again
    and the k-th, made before the deadline, is answered by a text or by an
    exception, the attempt ends with that text or that exception after
    k+1 polls and k sleeps: no request follows the answer. *)
Theorem attempt_stops_at_verdict (cfg : config) (w : world)
    (repr : pyval -> pystr) (path : pystr) (timeout : Z)
    (resp : response) (url : pystr) (k : nat) :
  open_rb w path = inr tt ->
  post_reply w path = inr resp ->
  status_code resp = 202%N ->
  headers_get (headers resp) (py "Operation-Location") = Some url ->
  url <> [] ->
  (forall i, i < k -> poll_body repr (poll_reply w path i) = Continue) ->
  (clock_at w path k < clock w path + timeout * 1000)%Z ->
  poll_body repr (poll_reply w path k) <> Continue ->
  result (azure_read_image cfg w repr path timeout)
  = match poll_body repr (poll_reply w path k) with
    | Return text => inr text
    | Raise e => inl e
    | Continue => inl timed_out
    end
  /\ polls (trace (azure_read_image cfg w repr path timeout)) = S k
  /\ sleeps (trace (azure_read_image cfg w repr path timeout)) = k.
Proof.
  intros Hopen Hpost Hs Hh Hurl Hcont Hlt Hne.
  rewrite (azure_read_image_accepted cfg w repr path timeout resp url)
    by assumption.
  unfold result, trace. cbn [fst snd polls sleeps].
  destruct (poll_budget_covers w path timeout k Hlt) as (fuel & ->).
  assert (Hclock : forall i, i < k ->
            (clock_at w path i < clock w path + timeout * 1000)%Z).
  { intros i Hi. pose proof (clock_at_mono w path i k ltac:(lia)). lia. }
  pose proof (poll_loop_steps w repr path url _ k (S fuel) Hclock Hcont 0
                (Nat.le_0_l k)) as HR.
  destruct (poll_loop_steps_trace w repr path url _ k (S fuel) Hclock Hcont 0
              (Nat.le_0_l k)) as (H1 & H2).
  rewrite (poll_loop_last w repr path url _ fuel k Hlt Hne) in HR, H1, H2.
  cbn [clock_at] in HR, H1, H2. unfold result, trace in *.
  cbn [fst snd polls sleeps] in HR, H1, H2.
  rewrite HR, H1, H2. repeat split; lia.
Qed.

Lemma attempt_stops_at_verdict_witness :
  polls (trace (azure_read_image Sample.azure_and_local (Sample.fails_after 3)
                  Sample.sample_repr (py "a.jpg") 30)) = 4
  /\ sleeps (trace (azure_read_image Sample.azure_and_local (Sample.fails_after 3)
                      Sample.sample_repr (py "a.jpg") 30)) = 3.
Proof.
  destruct (attempt_stops_at_verdict Sample.azure_and_local
              (Sample.fails_after 3) Sample.sample_repr (py "a.jpg") 30
              Sample.accepted (py "https://azure.test/op/1") 3)
    as (_ & Hp & Hs); try reflexivity.
  - discriminate.
  - intros [|[|[|i]]] Hi; try reflexivity. lia.
  - vm_compute. discriminate.
  - split; [exact Hp|exact Hs].
Defined.

(** X17. A poll whose JSON body is not an object (a list, a string, a
    number, null) ends an accepted attempt with the AttributeError that
    names the type of the body: the loop reads the status with [get]
    without looking at what it decoded. *)
Theorem body_not_an_object (cfg : config) (w : world)
    (repr : pyval -> pystr) (path : pystr) (timeout : Z)
    (resp : response) (url : pystr) (k : nat) (v : pyval) :
  open_rb w path = inr tt ->
  post_reply w path = inr resp ->
  status_code resp = 202%N ->
  headers_get (headers resp) (py "Operation-Location") = Some url ->
  url <> [] ->
  (forall i, i < k -> poll_body repr (poll_reply w path i) = Continue) ->
  (clock_at w path k < clock w path + timeout * 1000)%Z ->
  poll_reply w path k = GetBody (inr v) ->
  (forall kvs, v <> PDict kvs) ->
  result (azure_read_image cfg w repr path timeout)
  = inl (Exn AttributeError
           (py "'" ++ type_name v ++ py "' object has no attribute 'get'")).
Proof.
  intros Hopen Hpost Hs Hh Hurl Hcont Hlt Hk Hv.
  rewrite (azure_read_image_accepted cfg w repr path timeout resp url)
    by assumption.
  unfold result at 1. cbn [fst].
  destruct (poll_budget_covers w path timeout k Hlt) as (fuel & ->).
  rewrite (poll_loop_steps w repr path url _ k (S fuel)); try assumption; try lia.
  - rewrite poll_loop_S. apply Z.ltb_lt in Hlt. rewrite Hlt, Hk.
    destruct v; try reflexivity. now destruct (Hv kvs).
  - intros i Hi. pose proof (clock_at_mono w path i k ltac:(lia)). lia.
Qed.

Lemma body_not_an_object_witness :
  result (azure_read_image Sample.azure_only
            (Sample.with_service (inr Sample.accepted)
               (fun _ => GetBody (inr (PList []))))
            Sample.sample_repr (py "a.jpg") 30)
  = inl (Exn AttributeError
           (py "'" ++ py "list" ++ py "' object has no attribute 'get'")).
Proof.
  apply (body_not_an_object Sample.azure_only
           (Sample.with_service (inr Sample.accepted)
              (fun _ => GetBody (inr (PList []))))
           Sample.sample_repr (py "a.jpg") 30 Sample.accepted
           (py "https://azure.test/op/1") 0 (PList []));
    try reflexivity.
  - discriminate.
  - intros i Hi. lia.
  - discriminate.
Defined.
